(** * PID playground: the controller, the plants and the simulation driver

    A shallow embedding of [pid_controller.py], [system_simulation.py] and of
    the simulation part of [pid_playground.py], with the properties of the
    design document stated and settled against it.

    The Python code computes on floating-point numbers.  The embedding is
    written once over an interface of the operations the code uses
    ([PyFloat]) and is read at three instances:
    - [binary64]: Python's [float], IEEE 754 double precision on Rocq's
      primitive floats, whose [/] raises [ZeroDivisionError] on a zero
      divisor;
    - [numpy_float64]: NumPy's [float64] scalars, which is what the elements
      of the arrays of [pid_playground.py] are: the same numbers and
      operations, except that a division by zero returns the IEEE quotient
      (an infinity or NaN, with a warning) instead of raising.  An operation
      with one [float64] operand is a [float64] operation, so a method
      called with an array element computes in this instance throughout;
    - [exact]: the rationals [Qc], the arithmetic in which the design
      document writes its formulas.
    Statements that only follow the data flow of the code are proved for every
    instance; statements that need the field laws are proved for [exact], and
    evaluated on the floats where rounding shows. *)

From Stdlib Require Import ZArith QArith Qcanon Qcabs Floats String List Lia.
From stdpp Require Import gmap strings list pretty.

Set Warnings "-inexact-float".

(** ** Exceptions *)

(** The built-in exceptions the code can meet: [ValueError] is the one the
    program raises itself, the others come from the interpreter
    ([AttributeError] carries the name of the missing attribute). *)
Inductive exn : Type :=
| ValueError (msg : string)
| ZeroDivisionError (msg : string)
| OverflowError (msg : string)
| AttributeError (name : string)
| IndexError.

Inductive result (A : Type) : Type :=
| Ok (a : A)
| Raise (e : exn).
Arguments Ok {A} a.
Arguments Raise {A} e.

(** ** The arithmetic the code relies on *)

Declare Scope pyfloat_scope.
Delimit Scope pyfloat_scope with F.

(** The operations of Python's [float] that the three source files use, and
    the literals [0.0], [1.0], [2], [0.5] and [0.01] ([fzero], [fone], [ftwo],
    [fhalf], [fcenti]).  [fquot] is the quotient for a non-zero divisor; the test on the divisor
    that [/] performs is [truediv] below, which raises on a zero divisor when
    [zero_division_raises].  [to_int] is [int(x)], which raises on the
    infinities and on NaN.  [fnan] is what NumPy stores in a float array for
    [None].  [is_real] tells the numbers from the infinities and NaN. *)
Class PyFloat (F : Type) : Type := {
  fzero : F;
  fone : F;
  ftwo : F;
  fhalf : F;
  fcenti : F;
  fadd : F -> F -> F;
  fsub : F -> F -> F;
  fmul : F -> F -> F;
  fquot : F -> F -> F;
  zero_division_raises : bool;
  fopp : F -> F;
  flt : F -> F -> bool;
  feq : F -> F -> bool;
  of_nat : nat -> F;
  to_int : F -> result Z;
  fnan : F;
  is_real : F -> bool
}.

Infix "+" := fadd : pyfloat_scope.
Infix "-" := fsub : pyfloat_scope.
Infix "*" := fmul : pyfloat_scope.
Notation "- x" := (fopp x) : pyfloat_scope.
Infix "<?" := flt : pyfloat_scope.
Infix "=?" := feq : pyfloat_scope.
Notation "x >? y" := (flt y x) : pyfloat_scope.
Notation "x !=? y" := (negb (feq x y)) (at level 70) : pyfloat_scope.

(** What the proofs use of the comparisons and of the product with zero.
    The three instances below satisfy it. *)
Class PyFloatLaws (F : Type) `{PyFloat F} : Prop := {
  pos_nonzero : forall x : F, flt fzero x = true -> feq x fzero = false;
  zero_not_pos : forall x : F, feq x fzero = true -> flt fzero x = false;
  mul_zero_r :
    forall x : F, is_real x = true -> feq (fmul x fzero) fzero = true
}.

(** The comparison [<] never holds between a number and itself. *)
Class PyFloatOrder (F : Type) `{PyFloat F} : Prop := {
  flt_irrefl : forall x : F, flt x x = false
}.

(** The comparison [<] is transitive. *)
Class PyFloatTrans (F : Type) `{PyFloat F} : Prop := {
  flt_trans :
    forall x y z : F, flt x y = true -> flt y z = true -> flt x z = true
}.

(** The absolute value, [abs(x)] and [numpy.abs]. *)
Class PyFloatAbs (F : Type) `{PyFloat F} : Type := {
  fabs : F -> F
}.

(** *** IEEE 754 binary64 *)

(** [int(x)]: truncation toward zero of a finite float. *)
Definition float_to_int (x : float) : result Z :=
  match Prim2SF x with
  | S754_zero _ => Ok 0%Z
  | S754_finite s m e =>
      let a := Z.shiftl (Z.pos m) e in Ok (if s then Z.opp a else a)
  | S754_infinity _ =>
      Raise (OverflowError "cannot convert float infinity to integer")
  | S754_nan => Raise (ValueError "cannot convert float NaN to integer")
  end.

Definition float_is_real (x : float) : bool :=
  match Prim2SF x with
  | S754_zero _ => true
  | S754_finite _ _ _ => true
  | S754_infinity _ => false
  | S754_nan => false
  end.

(** [float(n)] for an index [n]; exact below [2^53]. *)
Definition float_of_nat (n : nat) : float :=
  PrimFloat.of_uint63 (Uint63.of_Z (Z.of_nat n)).

#[export] Instance binary64 : PyFloat float | 0 := {|
  fzero := 0%float;
  fone := 1%float;
  ftwo := 2%float;
  fhalf := 0.5%float;
  fcenti := 0.01%float;
  fadd := PrimFloat.add;
  fsub := PrimFloat.sub;
  fmul := PrimFloat.mul;
  fquot := PrimFloat.div;
  zero_division_raises := true;
  fopp := PrimFloat.opp;
  flt := PrimFloat.ltb;
  feq := PrimFloat.eqb;
  of_nat := float_of_nat;
  to_int := float_to_int;
  fnan := PrimFloat.nan;
  is_real := float_is_real
|}.

(** *** NumPy's float64 scalars *)

#[export] Instance numpy_float64 : PyFloat float | 10 := {|
  fzero := 0%float;
  fone := 1%float;
  ftwo := 2%float;
  fhalf := 0.5%float;
  fcenti := 0.01%float;
  fadd := PrimFloat.add;
  fsub := PrimFloat.sub;
  fmul := PrimFloat.mul;
  fquot := PrimFloat.div;
  zero_division_raises := false;
  fopp := PrimFloat.opp;
  flt := PrimFloat.ltb;
  feq := PrimFloat.eqb;
  of_nat := float_of_nat;
  to_int := float_to_int;
  fnan := PrimFloat.nan;
  is_real := float_is_real
|}.

(** *** Exact rationals *)

(** There is no NaN among the rationals: [fnan] is [0] here, and is read
    only where a plant of an unknown type is stepped, which no constructed
    plant is. *)

Definition Qc_ltb (x y : Qc) : bool :=
  match (x ?= y)%Qc with Lt => true | _ => false end.

Definition Qc_of_nat (n : nat) : Qc := Q2Qc (inject_Z (Z.of_nat n)).

Definition Qc_to_int (x : Qc) : result Z :=
  Ok (Z.quot (Qnum (this x)) (Z.pos (Qden (this x)))).

#[export] Instance exact : PyFloat Qc := {|
  fzero := Q2Qc 0;
  fone := Q2Qc 1;
  ftwo := Q2Qc 2;
  fhalf := Q2Qc (1 # 2);
  fcenti := Q2Qc (1 # 100);
  fadd := Qcplus;
  fsub := Qcminus;
  fmul := Qcmult;
  fquot := Qcdiv;
  zero_division_raises := true;
  fopp := Qcopp;
  flt := Qc_ltb;
  feq := Qc_eq_bool;
  of_nat := Qc_of_nat;
  to_int := Qc_to_int;
  fnan := Q2Qc 0;
  is_real := fun _ => true
|}.

#[export] Instance binary64_abs : @PyFloatAbs float binary64 :=
  {| fabs := PrimFloat.abs |}.

#[export] Instance numpy_float64_abs : @PyFloatAbs float numpy_float64 :=
  {| fabs := PrimFloat.abs |}.

#[export] Instance exact_abs : @PyFloatAbs Qc exact :=
  {| fabs := Qcabs |}.

(** ** Mutable objects *)

(** A method of an object of type [S]: it returns or raises, and in both
    cases leaves the object as the assignments executed so far made it. *)
Definition method (S A : Type) : Type := S -> result A * S.

Definition ret {S A} (a : A) : method S A := fun s => (Ok a, s).
Definition raise {S A} (e : exn) : method S A := fun s => (Raise e, s).
Definition bind {S A B} (m : method S A) (k : A -> method S B) : method S B :=
  fun s => match m s with
           | (Ok a, s') => k a s'
           | (Raise e, s') => (Raise e, s')
           end.
Definition get {S A} (field : S -> A) : method S A := fun s => (Ok (field s), s).
Definition modify {S} (f : S -> S) : method S unit := fun s => (Ok tt, f s).
Definition lift {S A} (r : result A) : method S A := fun s => (r, s).

(** A method call whose exception the caller does not catch: the caller
    goes on with the value and the object, or stops with the exception. *)
Definition call {S A} (m : method S A) (s : S) : result (A * S) :=
  match m s with
  | (Ok a, s') => Ok (a, s')
  | (Raise e, _) => Raise e
  end.

Definition rbind {A B} (r : result A) (k : A -> result B) : result B :=
  match r with
  | Ok a => k a
  | Raise e => Raise e
  end.

Notation "'let*' x ':=' m 'in' k" := (bind m (fun x => k))
  (at level 10, x name, m at level 100, k at level 200).
Notation "'do' m 'then' k" := (bind m (fun _ => k))
  (at level 10, m at level 100, k at level 200).
Notation "'let?' x ':=' r 'in' k" := (rbind r (fun x => k))
  (at level 10, x name, r at level 100, k at level 200).
Notation "'let?' ' p ':=' r 'in' k" :=
  (rbind r (fun x => match x with p => k end))
  (at level 10, p pattern, r at level 100, k at level 200).

Section Division.
Context {F : Type} `{PyFloat F}.

(** [x / y] *)
Definition truediv (x y : F) : result F :=
  if ((y =? fzero)%F && zero_division_raises)%bool
  then Raise (ZeroDivisionError "float division by zero")
  else Ok (fquot x y).
End Division.

(** ** [pid_controller.py] *)

Module PIDController.
Section PIDController.
Context {F : Type} `{PyFloat F}.
Local Open Scope pyfloat_scope.

(** The attributes of a [PIDController] object.  [output_limits] is [None]
    or a pair [(min, max)]. *)
Record t : Type := {
  Kp : F;
  Ki : F;
  Kd : F;
  integral : F;
  previous_error : F;
  output_limits : option (F * F);
  proportional_term : F;
  integral_term : F;
  derivative_term : F
}.

(** Attribute assignments [self.x = v]. *)
Definition set_integral (v : F) (self : t) : t :=
  {| Kp := Kp self; Ki := Ki self; Kd := Kd self;
     integral := v; previous_error := previous_error self;
     output_limits := output_limits self;
     proportional_term := proportional_term self;
     integral_term := integral_term self;
     derivative_term := derivative_term self |}.

Definition set_previous_error (v : F) (self : t) : t :=
  {| Kp := Kp self; Ki := Ki self; Kd := Kd self;
     integral := integral self; previous_error := v;
     output_limits := output_limits self;
     proportional_term := proportional_term self;
     integral_term := integral_term self;
     derivative_term := derivative_term self |}.

Definition set_proportional_term (v : F) (self : t) : t :=
  {| Kp := Kp self; Ki := Ki self; Kd := Kd self;
     integral := integral self; previous_error := previous_error self;
     output_limits := output_limits self;
     proportional_term := v;
     integral_term := integral_term self;
     derivative_term := derivative_term self |}.

Definition set_integral_term (v : F) (self : t) : t :=
  {| Kp := Kp self; Ki := Ki self; Kd := Kd self;
     integral := integral self; previous_error := previous_error self;
     output_limits := output_limits self;
     proportional_term := proportional_term self;
     integral_term := v;
     derivative_term := derivative_term self |}.

Definition set_derivative_term (v : F) (self : t) : t :=
  {| Kp := Kp self; Ki := Ki self; Kd := Kd self;
     integral := integral self; previous_error := previous_error self;
     output_limits := output_limits self;
     proportional_term := proportional_term self;
     integral_term := integral_term self;
     derivative_term := v |}.

Definition __init__ (Kp Ki Kd : F) (output_limits : option (F * F)) : t :=
  {| Kp := Kp; Ki := Ki; Kd := Kd;
     integral := fzero; previous_error := fzero;
     output_limits := output_limits;
     proportional_term := fzero;
     integral_term := fzero;
     derivative_term := fzero |}.

(** [update].  In the two saturated branches the integer [0] that
    [... if self.Ki != 0 else 0] stores behaves as [0.0] in every later
    operation. *)
Definition update (error dt : F) : method t F :=
  do modify (fun self => set_proportional_term (Kp self * error) self) then
  do modify (fun self => set_integral (integral self + error * dt) self) then
  do modify (fun self => set_integral_term (Ki self * integral self) self) then
  let* previous := get previous_error in
  let* derivative := (if dt >? fzero then lift (truediv (error - previous) dt)
                      else ret fzero) in
  do modify (fun self => set_derivative_term (Kd self * derivative) self) then
  let* P := get proportional_term in
  let* I := get integral_term in
  let* D := get derivative_term in
  let output := P + I + D in
  let* limits := get output_limits in
  let* output :=
    match limits with
    | Some (min_output, max_output) =>
        if output >? max_output then
          let* P := get proportional_term in
          let* D := get derivative_term in
          let* ki := get Ki in
          let* v := (if ki !=? fzero
                     then lift (truediv (max_output - P - D) ki)
                     else ret fzero) in
          do modify (set_integral v) then
          ret max_output
        else if output <? min_output then
          let* P := get proportional_term in
          let* D := get derivative_term in
          let* ki := get Ki in
          let* v := (if ki !=? fzero
                     then lift (truediv (min_output - P - D) ki)
                     else ret fzero) in
          do modify (set_integral v) then
          ret min_output
        else ret output
    | None => ret output
    end in
  do modify (set_previous_error error) then
  ret output.

Definition reset : method t unit :=
  do modify (set_integral fzero) then
  do modify (set_previous_error fzero) then
  do modify (set_proportional_term fzero) then
  do modify (set_integral_term fzero) then
  modify (set_derivative_term fzero).

Definition set_gains (Kp' Ki' Kd' : F) : method t unit :=
  modify (fun self =>
    {| Kp := Kp'; Ki := Ki'; Kd := Kd';
       integral := integral self; previous_error := previous_error self;
       output_limits := output_limits self;
       proportional_term := proportional_term self;
       integral_term := integral_term self;
       derivative_term := derivative_term self |}).

(** [get_components]: the dictionary with the keys ['proportional'],
    ['integral'] and ['derivative'], as the triple of its values. *)
Definition get_components : method t (F * F * F) :=
  let* P := get proportional_term in
  let* I := get integral_term in
  let* D := get derivative_term in
  ret (P, I, D).

Definition set_output_limits (min_output max_output : F) : method t unit :=
  modify (fun self =>
    {| Kp := Kp self; Ki := Ki self; Kd := Kd self;
       integral := integral self; previous_error := previous_error self;
       output_limits := Some (min_output, max_output);
       proportional_term := proportional_term self;
       integral_term := integral_term self;
       derivative_term := derivative_term self |}).

(** [get_tuning_info]: the values of the keys ['Kp'], ['Ki'], ['Kd'],
    ['integral_state'] and ['previous_error']. *)
Definition get_tuning_info : method t (F * F * F * F * F) :=
  let* kp := get Kp in
  let* ki := get Ki in
  let* kd := get Kd in
  let* i := get integral in
  let* e := get previous_error in
  ret (kp, ki, kd, i, e).

(** A client calling [update] and then [get_components] for each
    [(error, dt)] of a list: what it observes of the controller. *)
Fixpoint run (calls : list (F * F)) (self : t)
  : list (result F * result (F * F * F)) * t :=
  match calls with
  | [] => ([], self)
  | (error, dt) :: rest =>
      let '(out, self1) := update error dt self in
      let '(comps, self2) := get_components self1 in
      let '(outs, self3) := run rest self2 in
      ((out, comps) :: outs, self3)
  end.

(** *** The values one [update] call computes

    The sub-expressions of [update], named so that statements can refer to
    them: the rate of change of the error, the sum of the three terms
    before the limits are applied, and the two branches on the limits. *)
Definition derivative_of (self : t) (error dt : F) : F :=
  if dt >? fzero then fquot (error - previous_error self) dt else fzero.

Definition unsaturated (self : t) (error dt : F) : F :=
  Kp self * error + Ki self * (integral self + error * dt)
  + Kd self * derivative_of self error dt.

Definition saturate (limits : option (F * F)) (output : F) : F :=
  match limits with
  | Some (min_output, max_output) =>
      if output >? max_output then max_output
      else if output <? min_output then min_output
      else output
  | None => output
  end.

(** The integral that the statements [self.integral += error * dt] of a
    sequence of calls accumulate from [i0]. *)
Definition accumulate (i0 : F) (calls : list (F * F)) : F :=
  fold_left (fun acc (c : F * F) => acc + fst c * snd c) calls i0.

(** Whether one of the two saturated branches is taken. *)
Definition clamped (limits : option (F * F)) (output : F) : bool :=
  match limits with
  | Some (min_output, max_output) =>
      (output >? max_output) || (output <? min_output)
  | None => false
  end.
End PIDController.
Arguments t : clear implicits.
End PIDController.

(** ** [system_simulation.py] *)

(** The plant.  [system_type] is the string the caller gave and [params] its
    dictionary.  [time_constant], [gain], [damping] and [natural_freq] are the
    attributes that [_initialize_system] creates for some types only: [None]
    is an attribute the object does not have, and reading it raises
    [AttributeError].  The helpers that only describe the plant for display
    ([get_system_info], [get_transfer_function_info],
    [step_response_analytical]) take no part in the simulation and are left
    out. *)
Module SystemSimulation.

(** The three tags that [_initialize_system] and [update] compare with. *)
Definition recognized (ty : string) : Prop :=
  ty = "First Order" \/ ty = "Second Order" \/ ty = "Integrator".

#[export] Instance recognized_dec (ty : string) : Decision (recognized ty).
Proof. unfold recognized. apply _. Defined.

(** What a division by zero between Python floats raises. *)
Definition division_error : exn := ZeroDivisionError "float division by zero".

Section SystemSimulation.
Context {F : Type} `{PyFloat F}.
Local Open Scope pyfloat_scope.

Record t : Type := {
  system_type : string;
  params : gmap string F;
  output : F;
  output_dot : F;
  previous_input : F;
  time_constant : option F;
  gain : option F;
  damping : option F;
  natural_freq : option F
}.

Definition set_output (v : F) (self : t) : t :=
  {| system_type := system_type self; params := params self;
     output := v; output_dot := output_dot self;
     previous_input := previous_input self;
     time_constant := time_constant self; gain := gain self;
     damping := damping self; natural_freq := natural_freq self |}.

Definition set_output_dot (v : F) (self : t) : t :=
  {| system_type := system_type self; params := params self;
     output := output self; output_dot := v;
     previous_input := previous_input self;
     time_constant := time_constant self; gain := gain self;
     damping := damping self; natural_freq := natural_freq self |}.

Definition set_previous_input (v : F) (self : t) : t :=
  {| system_type := system_type self; params := params self;
     output := output self; output_dot := output_dot self;
     previous_input := v;
     time_constant := time_constant self; gain := gain self;
     damping := damping self; natural_freq := natural_freq self |}.

Definition set_time_constant (v : F) (self : t) : t :=
  {| system_type := system_type self; params := params self;
     output := output self; output_dot := output_dot self;
     previous_input := previous_input self;
     time_constant := Some v; gain := gain self;
     damping := damping self; natural_freq := natural_freq self |}.

Definition set_gain (v : F) (self : t) : t :=
  {| system_type := system_type self; params := params self;
     output := output self; output_dot := output_dot self;
     previous_input := previous_input self;
     time_constant := time_constant self; gain := Some v;
     damping := damping self; natural_freq := natural_freq self |}.

Definition set_damping (v : F) (self : t) : t :=
  {| system_type := system_type self; params := params self;
     output := output self; output_dot := output_dot self;
     previous_input := previous_input self;
     time_constant := time_constant self; gain := gain self;
     damping := Some v; natural_freq := natural_freq self |}.

Definition set_natural_freq (v : F) (self : t) : t :=
  {| system_type := system_type self; params := params self;
     output := output self; output_dot := output_dot self;
     previous_input := previous_input self;
     time_constant := time_constant self; gain := gain self;
     damping := damping self; natural_freq := Some v |}.

(** Reading an attribute that may be missing. *)
Definition attr (name : string) (field : t -> option F) : method t F :=
  fun self => match field self with
              | Some v => (Ok v, self)
              | None => (Raise (AttributeError name), self)
              end.

(** [params.get(key, default)] *)
Definition get_default (params : gmap string F) (key : string) (default : F)
  : F :=
  match params !! key with
  | Some v => v
  | None => default
  end.

(** [self.params.get(key, default)] *)
Definition params_get (key : string) (default : F) : method t F :=
  fun self => (Ok (get_default (params self) key default), self).

Definition _initialize_system : method t unit :=
  let* ty := get system_type in
  if String.eqb ty "First Order" then
    let* tau := params_get "time_constant" fone in
    do modify (set_time_constant tau) then
    let* k := params_get "gain" fone in
    modify (set_gain k)
  else if String.eqb ty "Second Order" then
    let* zeta := params_get "damping" fhalf in
    do modify (set_damping zeta) then
    let* wn := params_get "natural_freq" fone in
    do modify (set_natural_freq wn) then
    let* k := params_get "gain" fone in
    modify (set_gain k)
  else if String.eqb ty "Integrator" then
    let* k := params_get "gain" fone in
    modify (set_gain k)
  else
    raise (ValueError ("Unknown system type: " ++ ty)).

(** The object as the assignments of [__init__] make it, before
    [_initialize_system] is called. *)
Definition blank (system_type : string) (params : gmap string F) : t :=
  {| system_type := system_type; params := params;
     output := fzero; output_dot := fzero; previous_input := fzero;
     time_constant := None; gain := None;
     damping := None; natural_freq := None |}.

(** The constructor call [SystemSimulation(system_type, params)]: the new
    object, or the exception that [_initialize_system] raised. *)
Definition __init__ (system_type : string) (params : gmap string F)
  : result t :=
  match _initialize_system (blank system_type params) with
  | (Ok _, self') => Ok self'
  | (Raise e, _) => Raise e
  end.

Definition _update_first_order (input_signal dt : F) : method t F :=
  let* k := attr "gain" gain in
  let* y := get output in
  let* tau := attr "time_constant" time_constant in
  let* dydt := lift (truediv (k * input_signal - y) tau) in
  do modify (fun self => set_output (output self + dydt * dt) self) then
  get output.

Definition _update_second_order (input_signal dt : F) : method t F :=
  let* wn := attr "natural_freq" natural_freq in
  let* zeta := attr "damping" damping in
  let* dx1dt := get output_dot in
  let* y := get output in
  let* ydot := get output_dot in
  let* k := attr "gain" gain in
  let dx2dt := - wn * wn * y - ftwo * zeta * wn * ydot
               + wn * wn * k * input_signal in
  do modify (fun self => set_output (output self + dx1dt * dt) self) then
  do modify (fun self => set_output_dot (output_dot self + dx2dt * dt) self) then
  get output.

Definition _update_integrator (input_signal dt : F) : method t F :=
  let* k := attr "gain" gain in
  let dydt := k * input_signal in
  do modify (fun self => set_output (output self + dydt * dt) self) then
  get output.

(** [update] returns [None] when no branch is taken. *)
Definition update (input_signal dt : F) : method t (option F) :=
  let* ty := get system_type in
  if String.eqb ty "First Order" then
    let* y := _update_first_order input_signal dt in ret (Some y)
  else if String.eqb ty "Second Order" then
    let* y := _update_second_order input_signal dt in ret (Some y)
  else if String.eqb ty "Integrator" then
    let* y := _update_integrator input_signal dt in ret (Some y)
  else ret None.

Definition reset : method t unit :=
  do modify (set_output fzero) then
  do modify (set_output_dot fzero) then
  modify (set_previous_input fzero).

Definition set_initial_conditions (initial_output initial_output_dot : F)
  : method t unit :=
  do modify (set_output initial_output) then
  modify (set_output_dot initial_output_dot).

(** What the constructor fixes of a plant: everything but [output] and
    [output_dot]. *)
Definition configuration (self : t)
  : string * gmap string F * F * option F * option F * option F * option F :=
  (system_type self, params self, previous_input self,
   time_constant self, gain self, damping self, natural_freq self).

(** The plants that the constructor builds: the tag is one of the three and
    the parameters of that type are present. *)
Definition constructed (self : t) : Prop :=
  (system_type self = "First Order"
   /\ is_Some (time_constant self) /\ is_Some (gain self))
  \/ (system_type self = "Second Order"
      /\ is_Some (natural_freq self) /\ is_Some (damping self)
      /\ is_Some (gain self))
  \/ (system_type self = "Integrator" /\ is_Some (gain self)).

(** A client calling [update] for each [(input_signal, dt)] of a list. *)
Fixpoint run (calls : list (F * F)) (self : t)
  : list (result (option F)) * t :=
  match calls with
  | [] => ([], self)
  | (input_signal, dt) :: rest =>
      let '(out, self1) := update input_signal dt self in
      let '(outs, self2) := run rest self1 in
      (out :: outs, self2)
  end.
End SystemSimulation.
Arguments t : clear implicits.
End SystemSimulation.

(** ** NumPy arrays *)

(** One-dimensional float arrays as lists, with the three constructors the
    driver uses and the indexing of Python (a negative index counts from the
    end; an index out of range raises [IndexError]). *)
Module np.
Section np.
Context {F : Type} `{PyFloat F}.
Local Open Scope pyfloat_scope.

Definition zeros (n : Z) : result (list F) :=
  if (n <? 0)%Z then Raise (ValueError "negative dimensions are not allowed")
  else Ok (repeat fzero (Z.to_nat n)).

Definition full (n : Z) (v : F) : result (list F) :=
  if (n <? 0)%Z then Raise (ValueError "negative dimensions are not allowed")
  else Ok (repeat v (Z.to_nat n)).

(** [numpy.linspace(start, stop, num)] with [endpoint=True]: [num] samples,
    the first at [start], [step = (stop - start) / (num - 1)] apart, and the
    last one set to [stop]. *)
Definition linspace (start stop : F) (num : Z) : result (list F) :=
  if (num <? 0)%Z
  then Raise (ValueError ("Number of samples, " ++ pretty num
                          ++ ", must be non-negative."))
  else
    let n := Z.to_nat num in
    let div := (n - 1)%nat in
    let delta := stop - start in
    let y := map of_nat (seq 0 n) in
    let y :=
      if (0 <? div)%nat then
        let step := fquot delta (of_nat div) in
        if step =? fzero
        then map (fun v => fquot v (of_nat div) * delta) y
        else map (fun v => v * step) y
      else map (fun v => v * delta) y in
    let y := map (fun v => v + start) y in
    Ok (if (1 <? n)%nat then <[(n - 1)%nat := stop]> y else y).

Definition index (a : list F) (i : Z) : result nat :=
  let len := Z.of_nat (length a) in
  let j := if (i <? 0)%Z then (i + len)%Z else i in
  if ((0 <=? j)%Z && (j <? len)%Z)%bool then Ok (Z.to_nat j)
  else Raise IndexError.

Definition getitem (a : list F) (i : Z) : result F :=
  match index a i with
  | Ok j => match a !! j with
            | Some v => Ok v
            | None => Raise IndexError
            end
  | Raise e => Raise e
  end.

Definition setitem (a : list F) (i : Z) (v : F) : result (list F) :=
  match index a i with
  | Ok j => Ok (<[j := v]> a)
  | Raise e => Raise e
  end.
End np.

Section np_masks.
Context {F : Type} `{PyFloatAbs F}.
Local Open Scope pyfloat_scope.

(** [numpy.abs(a - x) > t] for an array [a] and scalars [x] and [t]: the
    boolean array of the comparisons, element by element. *)
Definition abs_diff_greater (a : list F) (x t : F) : list bool :=
  map (fun v => fabs (v - x) >? t) a.

(** [numpy.any(mask)] *)
Definition any (mask : list bool) : bool := existsb (fun b => b) mask.

(** The indices at which [mask] holds, in increasing order, counted from
    [i]: [numpy.where(mask)[0]] is [where_indices mask]. *)
Fixpoint where_from (i : nat) (mask : list bool) : list nat :=
  match mask with
  | [] => []
  | b :: rest => (if b then [i] else []) ++ where_from (S i) rest
  end.

Definition where_indices (mask : list bool) : list nat := where_from 0 mask.
End np_masks.
End np.

(** ** [pid_playground.py]: the simulation run *)

(** The simulation that [main] runs when the button is pressed.  The widgets,
    the metrics computed for display and the plots are left out. *)

Module pid_playground.
Section pid_playground.
Context {F : Type} `{PyFloat F}.
Local Open Scope pyfloat_scope.

(** The dictionary stored under ['simulation_data']. *)
Record simulation_data : Type := {
  time : list F;
  setpoint : list F;
  output : list F;
  control_signal : list F;
  error : list F;
  pid_params : F * F * F;
  system_type : string;
  system_params : gmap string F
}.

(** The objects and arrays that the simulation loop reads and writes. *)
Record loop_state : Type := {
  pid : PIDController.t F;
  system_sim : SystemSimulation.t F;
  output_a : list F;
  control_signal_a : list F;
  error_a : list F
}.

(** The first [j] samples satisfy [error[k] = setpoint - output[k]]. *)
Definition closed_upto (setpoint_value : F) (j : nat) (st : loop_state)
  : Prop :=
  forall k y, (k < j)%nat -> output_a st !! k = Some y ->
              error_a st !! k = Some (setpoint_value - y).

(** One turn of [for i in range(1, time_steps)]. *)
Definition loop_body (setpoint dt : F) (st : loop_state) (i : Z)
  : result loop_state :=
  let? y := np.getitem (output_a st) (i - 1) in
  let? error := np.setitem (error_a st) (i - 1) (setpoint - y) in
  let? e := np.getitem error (i - 1) in
  let? '(u, pid) := call (PIDController.update e dt) (pid st) in
  let? control_signal := np.setitem (control_signal_a st) (i - 1) u in
  let? u := np.getitem control_signal (i - 1) in
  let? '(y', system_sim) :=
    call (SystemSimulation.update u dt) (system_sim st) in
  let? output :=
    np.setitem (output_a st) i
      (match y' with Some v => v | None => fnan end) in
  Ok {| pid := pid; system_sim := system_sim; output_a := output;
        control_signal_a := control_signal; error_a := error |}.

Fixpoint for_range (body : loop_state -> Z -> result loop_state)
  (indices : list Z) (st : loop_state) : result loop_state :=
  match indices with
  | [] => Ok st
  | i :: rest => let? st' := body st i in for_range body rest st'
  end.

(** [range(1, time_steps)] *)
Definition range1 (time_steps : Z) : list Z :=
  map (fun k => Z.of_nat k) (seq 1 (Z.to_nat time_steps - 1)).

(** The body of [main] under the "Run Simulation" button, as a function of
    the values read from the widgets.  The errors, control signals and
    outputs that the loop passes to the controller and to the plant are
    elements of NumPy arrays, so the program runs at [numpy_float64]; the one
    division between Python floats, [sim_time / dt], has the divisor
    [0.01]. *)
Definition main (Kp Ki Kd setpoint sim_time : F)
  (system_type : string) (system_params : gmap string F)
  : result simulation_data :=
  let pid := PIDController.__init__ Kp Ki Kd None in
  let? system_sim := SystemSimulation.__init__ system_type system_params in
  let dt := fcenti in
  let? q := truediv sim_time dt in
  let? time_steps := to_int q in
  let? time_array := np.linspace fzero sim_time time_steps in
  let? setpoint_array := np.full time_steps setpoint in
  let? output := np.zeros time_steps in
  let? control_signal := np.zeros time_steps in
  let? error := np.zeros time_steps in
  let? output := np.setitem output 0 fzero in
  let? st := for_range (loop_body setpoint dt) (range1 time_steps)
               {| pid := pid; system_sim := system_sim; output_a := output;
                  control_signal_a := control_signal; error_a := error |} in
  let? y := np.getitem (output_a st) (-1) in
  let? error := np.setitem (error_a st) (-1) (setpoint - y) in
  let? u := np.getitem (control_signal_a st) (-2) in
  let? control_signal := np.setitem (control_signal_a st) (-1) u in
  Ok {| time := time_array; setpoint := setpoint_array;
        output := output_a st; control_signal := control_signal;
        error := error; pid_params := (Kp, Ki, Kd);
        system_type := system_type; system_params := system_params |}.
End pid_playground.

Section settling.
Context {F : Type} `{PyFloatAbs F}.
Local Open Scope pyfloat_scope.

(** A sample outside the band around the setpoint. *)
Definition violates (setpoint_value tolerance y : F) : bool :=
  fabs (y - setpoint_value) >? setpoint_value * tolerance.

(** [calculate_settling_time(output, setpoint, time_array, tolerance)]; the
    callers leave [tolerance] to its default, [0.02]. *)
Definition calculate_settling_time (output : list F) (setpoint : F)
  (time_array : list F) (tolerance : F) : result F :=
  let target_range := setpoint * tolerance in
  let settling_mask := np.abs_diff_greater output setpoint target_range in
  if negb (np.any settling_mask) then Ok fzero
  else
    match last (np.where_indices settling_mask) with
    | None => Raise IndexError
    | Some last_violation_idx =>
        if (Z.of_nat last_violation_idx >=? Z.of_nat (length time_array) - 1)%Z
        then np.getitem time_array (-1)
        else np.getitem time_array (Z.of_nat last_violation_idx + 1)
    end.
End settling.
Arguments simulation_data : clear implicits.
Arguments loop_state : clear implicits.
End pid_playground.

(** * Properties *)

(** ** The arithmetics satisfy the laws *)

Lemma float_pos_nonzero (x : float) :
  PrimFloat.ltb 0%float x = true -> PrimFloat.eqb x 0%float = false.
Proof.
  rewrite FloatAxioms.ltb_spec, FloatAxioms.eqb_spec.
  destruct (Prim2SF x) as [s | s | | s m e]; try destruct s; cbn; congruence.
Qed.

Lemma float_zero_not_pos (x : float) :
  PrimFloat.eqb x 0%float = true -> PrimFloat.ltb 0%float x = false.
Proof.
  rewrite FloatAxioms.ltb_spec, FloatAxioms.eqb_spec.
  destruct (Prim2SF x) as [s | s | | s m e]; try destruct s; cbn; congruence.
Qed.

Lemma float_mul_zero_r (x : float) :
  float_is_real x = true ->
  PrimFloat.eqb (PrimFloat.mul x 0%float) 0%float = true.
Proof.
  unfold float_is_real.
  rewrite FloatAxioms.eqb_spec, FloatAxioms.mul_spec.
  destruct (Prim2SF x) as [s | s | | s m e]; try destruct s; cbn; congruence.
Qed.

#[export] Instance binary64_laws : @PyFloatLaws float binary64.
Proof.
  split.
  - exact float_pos_nonzero.
  - exact float_zero_not_pos.
  - exact float_mul_zero_r.
Qed.

Lemma Qc_pos_nonzero (x : Qc) :
  Qc_ltb (Q2Qc 0) x = true -> Qc_eq_bool x (Q2Qc 0) = false.
Proof.
  unfold Qc_ltb. intros H.
  destruct (Qc_eq_bool x (Q2Qc 0)) eqn:E; [|reflexivity].
  apply Qc_eq_bool_correct in E. subst x. discriminate H.
Qed.

Lemma Qc_zero_not_pos (x : Qc) :
  Qc_eq_bool x (Q2Qc 0) = true -> Qc_ltb (Q2Qc 0) x = false.
Proof.
  intros E. apply Qc_eq_bool_correct in E. subst x. reflexivity.
Qed.

Lemma Qc_mul_zero_r (x : Qc) :
  true = true -> Qc_eq_bool (x * Q2Qc 0)%Qc (Q2Qc 0) = true.
Proof.
  intros _. replace (x * Q2Qc 0)%Qc with (Q2Qc 0) by ring.
  reflexivity.
Qed.

#[export] Instance numpy_float64_laws : @PyFloatLaws float numpy_float64.
Proof.
  split.
  - exact float_pos_nonzero.
  - exact float_zero_not_pos.
  - exact float_mul_zero_r.
Qed.

#[export] Instance exact_laws : @PyFloatLaws Qc exact.
Proof.
  split.
  - exact Qc_pos_nonzero.
  - exact Qc_zero_not_pos.
  - exact Qc_mul_zero_r.
Qed.

(** ** The controller *)

Section PIDController_facts.
Context {F : Type} `{PyFloatLaws F}.
Import PIDController.
Local Open Scope pyfloat_scope.

(** The division of [update] is never by zero. *)
Lemma derivative_guarded (self : t F) (error dt : F) :
  (if dt >? fzero then truediv (error - previous_error self) dt
   else Ok fzero) = Ok (derivative_of self error dt).
Proof.
  unfold derivative_of, truediv.
  destruct (dt >? fzero) eqn:Hdt; [|reflexivity].
  now rewrite (pos_nonzero _ Hdt).
Qed.

(** What [update] returns and the object it leaves, in closed form. *)
Lemma update_run (self : t F) (error dt : F) :
  let P := Kp self * error in
  let i1 := integral self + error * dt in
  let D := Kd self * derivative_of self error dt in
  let output := unsaturated self error dt in
  let back bound :=
    if Ki self !=? fzero then fquot (bound - P - D) (Ki self) else fzero in
  update error dt self =
  (Ok (saturate (output_limits self) output),
   {| Kp := Kp self; Ki := Ki self; Kd := Kd self;
      integral :=
        match output_limits self with
        | Some (min_output, max_output) =>
            if output >? max_output then back max_output
            else if output <? min_output then back min_output
            else i1
        | None => i1
        end;
      previous_error := error;
      output_limits := output_limits self;
      proportional_term := P;
      integral_term := Ki self * i1;
      derivative_term := D |}).
Proof.
  destruct self as [kp ki kd i pe lim pt it dterm].
  unfold update, unsaturated, saturate, derivative_of, bind, modify, get,
    ret, lift, truediv.
  cbn.
  destruct (dt >? fzero) eqn:Hdt; [rewrite (pos_nonzero _ Hdt)|];
    (destruct lim as [[min_output max_output]|]; cbn; [|reflexivity]);
    match goal with
    | |- context [?o >? max_output] =>
        destruct (o >? max_output); cbn;
        [|destruct (o <? min_output); cbn]
    end;
    try reflexivity;
    unfold bind, lift, ret, modify, truediv; cbn;
    destruct (ki =? fzero) eqn:Hki; cbn; rewrite ?Hki; reflexivity.
Qed.

(** C3.  A call [update(error, dt)] with [dt > 0] that takes neither
    saturated branch returns
    [Kp*error + Ki*(integral0 + error*dt) + Kd*((error - previous_error0)/dt)],
    where [integral0] and [previous_error0] are the stored values before
    the call; after it the stored integral is [integral0 + error*dt] and
    [previous_error] is [error]. *)
Theorem update_unclamped (self : t F) (error dt : F) :
  (dt >? fzero) = true ->
  let output := Kp self * error + Ki self * (integral self + error * dt)
                + Kd self * fquot (error - previous_error self) dt in
  clamped (output_limits self) output = false ->
  exists self',
    update error dt self = (Ok output, self')
    /\ integral self' = integral self + error * dt
    /\ previous_error self' = error.
Proof.
  intros Hdt output Hclamp.
  assert (Hout : unsaturated self error dt = output)
    by (unfold unsaturated, derivative_of; now rewrite Hdt).
  eexists. rewrite update_run, Hout. split; [|split]; cbn.
  - f_equal. unfold saturate. unfold clamped in Hclamp.
    destruct (output_limits self) as [[lo hi]|]; [|reflexivity].
    apply orb_false_iff in Hclamp as [-> ->]. reflexivity.
  - unfold clamped in Hclamp.
    destruct (output_limits self) as [[lo hi]|]; [|reflexivity].
    apply orb_false_iff in Hclamp as [-> ->]. reflexivity.
  - reflexivity.
Qed.

(** C7.  A call [update(error, dt)] with [dt == 0] does not fail, whatever
    [error] and the stored [previous_error] are: no division takes place,
    the derivative term is [Kd * 0], which is zero for every gain that is a
    number, and the value returned is [P + I + Kd * 0] passed through the
    output limits. *)
Theorem update_dt_zero (self : t F) (error dt : F) :
  (dt =? fzero) = true ->
  let P := Kp self * error in
  let I := Ki self * (integral self + error * dt) in
  exists self',
    update error dt self
    = (Ok (saturate (output_limits self) (P + I + Kd self * fzero)), self')
    /\ proportional_term self' = P
    /\ integral_term self' = I
    /\ derivative_term self' = Kd self * fzero
    /\ (is_real (Kd self) = true -> (derivative_term self' =? fzero) = true).
Proof.
  intros Hdt P I.
  assert (Hd : derivative_of self error dt = fzero)
    by (unfold derivative_of; now rewrite (zero_not_pos _ Hdt)).
  eexists. rewrite update_run. unfold unsaturated. rewrite Hd. cbn.
  repeat split. apply mul_zero_r.
Qed.

(** [reset] makes the object the one the constructor builds from the same
    gains and limits. *)
Lemma reset_run (self : t F) :
  reset self
  = (Ok tt, __init__ (Kp self) (Ki self) (Kd self) (output_limits self)).
Proof. destruct self. reflexivity. Qed.

(** C8.  Whatever state a controller is in, after [reset()] it answers
    every sequence of [update] calls with the same outputs and the same
    component values as a controller freshly constructed with the same
    gains and limits, and ends in the same state; [reset] itself does not
    fail and leaves the gains and the limits as they were. *)
Theorem reset_as_fresh (self : t F) (calls : list (F * F)) :
  let fresh := __init__ (Kp self) (Ki self) (Kd self) (output_limits self) in
  let self' := snd (reset self) in
  fst (reset self) = Ok tt
  /\ run calls self' = run calls fresh
  /\ Kp self' = Kp self /\ Ki self' = Ki self /\ Kd self' = Kd self
  /\ output_limits self' = output_limits self.
Proof.
  rewrite reset_run. cbn. repeat split.
Qed.
End PIDController_facts.

(** C3 at the "Conservative" preset with limits wide enough not to clamp. *)
Lemma update_unclamped_witness :
  exists self',
    PIDController.update 10%float 0.01%float
      (PIDController.__init__ 1%float 0.1%float 0.05%float
         (Some ((-100)%float, 100%float)))
    = (Ok (1 * 10 + 0.1 * (0 + 10 * 0.01) + 0.05 * ((10 - 0) / 0.01))%float,
       self')
    /\ PIDController.integral self' = (0 + 10 * 0.01)%float
    /\ PIDController.previous_error self' = 10%float.
Proof.
  exact (update_unclamped
           (PIDController.__init__ 1%float 0.1%float 0.05%float
              (Some ((-100)%float, 100%float))) 10%float 0.01%float
           eq_refl eq_refl).
Defined.

(** C7 at [dt = 0.0] with a stored [previous_error] different from the
    error. *)
Lemma update_dt_zero_witness :
  let self :=
    PIDController.set_previous_error 3%float
      (PIDController.__init__ 2%float 0.5%float 0.25%float None) in
  exists self',
    PIDController.update 7%float 0%float self
    = (Ok (2 * 7 + 0.5 * (0 + 7 * 0) + 0.25 * 0)%float, self')
    /\ PIDController.proportional_term self' = (2 * 7)%float
    /\ PIDController.integral_term self' = (0.5 * (0 + 7 * 0))%float
    /\ PIDController.derivative_term self' = (0.25 * 0)%float
    /\ PrimFloat.eqb (PIDController.derivative_term self') 0%float = true.
Proof.
  intros self.
  destruct (update_dt_zero (H := binary64) self 7%float 0%float eq_refl)
    as (self' & Hrun & HP & HI & HD & Hzero).
  exists self'. repeat split; try assumption.
  apply Hzero. reflexivity.
Defined.

(** *** Anti-windup, in every arithmetic and in exact arithmetic *)

Lemma Qc_ltb_lt (x y : Qc) : Qc_ltb x y = true <-> (x < y)%Qc.
Proof.
  unfold Qc_ltb, Qclt, Qccompare. rewrite Qlt_alt.
  destruct (this x ?= this y)%Q; split; congruence.
Qed.

Lemma Qc_eq_bool_false (x y : Qc) : x <> y -> Qc_eq_bool x y = false.
Proof.
  intros Hne. destruct (Qc_eq_bool x y) eqn:E; [|reflexivity].
  now apply Qc_eq_bool_correct in E.
Qed.

(** Reading the operations of the interface at the [exact] instance. *)
Ltac exact_ops :=
  cbn [fadd fsub fmul fquot fopp fzero fone ftwo fhalf fcenti exact] in *.

(** *** The order of the limits *)

Lemma SFltb_trans (x y z : spec_float) :
  SFltb x y = true -> SFltb y z = true -> SFltb x z = true.
Proof.
  unfold SFltb, SFcompare.
  destruct x as [sx | sx | | sx mx ex], y as [sy | sy | | sy my ey],
    z as [sz | sz | | sz mz ez];
    try destruct sx; try destruct sy; try destruct sz; cbn;
    try discriminate; try reflexivity;
    change (Pos.compare_cont Eq) with Pos.compare;
    repeat match goal with
    | |- context [(?a ?= ?b)%Z] => destruct (Z.compare_spec a b)
    | |- context [(?a ?= ?b)%positive] => destruct (Pos.compare_spec a b)
    end; cbn; try discriminate; try reflexivity; intros; lia.
Qed.

Lemma float_ltb_trans (x y z : float) :
  PrimFloat.ltb x y = true -> PrimFloat.ltb y z = true ->
  PrimFloat.ltb x z = true.
Proof. rewrite !FloatAxioms.ltb_spec. apply SFltb_trans. Qed.

Lemma Qc_ltb_trans (x y z : Qc) :
  Qc_ltb x y = true -> Qc_ltb y z = true -> Qc_ltb x z = true.
Proof. rewrite !Qc_ltb_lt. apply Qclt_trans. Qed.

#[export] Instance binary64_trans : @PyFloatTrans float binary64.
Proof. split. exact float_ltb_trans. Qed.

#[export] Instance numpy_float64_trans : @PyFloatTrans float numpy_float64.
Proof. split. exact float_ltb_trans. Qed.

#[export] Instance exact_trans : @PyFloatTrans Qc exact.
Proof. split. exact Qc_ltb_trans. Qed.

Section Saturated_call.
Context {F : Type} `{PyFloatLaws F}.
Import PIDController.
Local Open Scope pyfloat_scope.

(** What a saturated call returns and the integral it stores, in the
    arithmetic of the call: the high branch is tested first, the low one
    only when it is not taken. *)
Lemma saturated_update (self : t F) (error dt lo hi : F) :
  output_limits self = Some (lo, hi) ->
  (Ki self =? fzero) = false ->
  let P := Kp self * error in
  let D := Kd self * derivative_of self error dt in
  let output := unsaturated self error dt in
  ((output >? hi) = true ->
   fst (update error dt self) = Ok hi
   /\ integral (snd (update error dt self)) = fquot (hi - P - D) (Ki self))
  /\ ((output >? hi) = false -> (output <? lo) = true ->
      fst (update error dt self) = Ok lo
      /\ integral (snd (update error dt self))
         = fquot (lo - P - D) (Ki self)).
Proof.
  intros Hlim Hki P D output.
  rewrite update_run. cbn [fst snd integral].
  rewrite Hlim, Hki. fold output. cbn [saturate negb].
  split.
  - intros ->. split; reflexivity.
  - intros -> ->. split; reflexivity.
Qed.
End Saturated_call.

Section Exact_controller.
Import PIDController.
Local Open Scope Qc_scope.

(** The integral that a saturated call stores, and the sum it gives. *)
Lemma saturated_integral_exact (self : t Qc) (error dt lo hi : Qc) :
  output_limits self = Some (lo, hi) ->
  Ki self <> 0 ->
  let output := unsaturated self error dt in
  let stored := integral (snd (update error dt self)) in
  let sum :=
    Kp self * error + Ki self * stored
    + Kd self * derivative_of self error dt in
  (hi < output -> sum = hi)
  /\ (~ hi < output -> output < lo -> sum = lo).
Proof.
  intros Hlim Hki output stored sum. subst sum stored.
  rewrite update_run. cbn [snd integral]. rewrite Hlim. fold output.
  change (feq (Ki self) fzero) with (Qc_eq_bool (Ki self) 0).
  rewrite (Qc_eq_bool_false _ _ Hki). cbn [negb].
  change (flt hi output) with (Qc_ltb hi output).
  change (flt output lo) with (Qc_ltb output lo).
  split.
  - intros Hhi. apply Qc_ltb_lt in Hhi as ->. exact_ops.
    generalize (derivative_of self error dt). intros d. field. exact Hki.
  - intros Hnhi Hlo.
    destruct (Qc_ltb hi output) eqn:E;
      [apply Qc_ltb_lt in E; contradiction|].
    apply Qc_ltb_lt in Hlo as ->. exact_ops.
    generalize (derivative_of self error dt). intros d. field. exact Hki.
Qed.
End Exact_controller.

Section Anti_windup.
Import PIDController.
Local Open Scope pyfloat_scope.

(** C1, as the code has it.  With [output_limits = (lo, hi)] set in the
    documented order (min, max), that is [hi < lo] false, and [Ki] not
    zero:

    - in every arithmetic, binary64 included, a call whose sum [P + I + D]
      exceeds [hi] returns [hi] and stores the integral [(hi - P - D) / Ki],
      and a call whose sum falls below [lo] returns [lo] and stores
      [(lo - P - D) / Ki], the operations being those of the arithmetic;

    - in exact arithmetic, with the integral so stored,
      [Kp*error + Ki*integral + Kd*derivative] is [hi] (resp. [lo]) again.

    [P] and [derivative] are the values of this call, computed before the
    limits are applied. *)
Theorem anti_windup_saturated :
  (forall (F : Type) (H : PyFloat F) (L : PyFloatLaws F) (T : PyFloatTrans F)
          (self : t F) (error dt lo hi : F),
     output_limits self = Some (lo, hi) ->
     (hi <? lo) = false ->
     (Ki self =? fzero) = false ->
     let P := Kp self * error in
     let D := Kd self * derivative_of self error dt in
     let output := unsaturated self error dt in
     ((output >? hi) = true ->
      fst (update error dt self) = Ok hi
      /\ integral (snd (update error dt self))
         = fquot (hi - P - D) (Ki self))
     /\ ((output <? lo) = true ->
         fst (update error dt self) = Ok lo
         /\ integral (snd (update error dt self))
            = fquot (lo - P - D) (Ki self)))
  /\ (forall (self : t Qc) (error dt lo hi : Qc),
        output_limits self = Some (lo, hi) ->
        (lo <= hi)%Qc ->
        Ki self <> Q2Qc 0 ->
        let output := unsaturated self error dt in
        let stored := integral (snd (update error dt self)) in
        let sum :=
          (Kp self * error + Ki self * stored
           + Kd self * derivative_of self error dt)%Qc in
        ((hi < output)%Qc -> sum = hi)
        /\ ((output < lo)%Qc -> sum = lo)).
Proof.
  split.
  - intros F H L T self error dt lo hi Hlim Hord Hki P D output.
    destruct (saturated_update self error dt lo hi Hlim Hki) as [Hhi Hlo].
    split; [exact Hhi|].
    intros Hlow. apply Hlo; [|exact Hlow].
    destruct (unsaturated self error dt >? hi) eqn:E; [|reflexivity].
    fold output in E. subst output.
    rewrite (flt_trans _ _ _ E Hlow) in Hord. discriminate Hord.
  - intros self error dt lo hi Hlim Hord Hki output stored sum.
    destruct (saturated_integral_exact self error dt lo hi Hlim Hki)
      as [Hhi Hlo].
    split; [exact Hhi|].
    intros Hlow. apply Hlo; [|exact Hlow].
    intros Hhigh. apply (Qclt_not_le _ _ (Qclt_trans _ _ _ Hhigh Hlow)).
    exact Hord.
Qed.
End Anti_windup.

(** C1 at concrete inputs.  In binary64, [Kp = 1e20], [Ki = 1], [Kd = 0],
    limits [(-1, 1)] and the call [update(1, 0.01)]: the sum exceeds
    [hi = 1], the call returns [1] and stores [(1 - 1e20*1 - 0*0) / 1].  In
    exact arithmetic, [Kp = 1], [Ki = 1/10], [Kd = 0], limits [(-1, 1)],
    [error = 29/10], [dt = 1/100]: the sum is [29029/10000], above
    [hi = 1], and the sum recomputed from the stored integral is [1]. *)
Lemma anti_windup_saturated_witness :
  (let self :=
     PIDController.__init__ 1e20%float 1%float 0%float
       (Some ((-1)%float, 1%float)) in
   fst (PIDController.update (H := binary64) 1%float 0.01%float self)
   = Ok 1%float
   /\ PIDController.integral
        (snd (PIDController.update (H := binary64) 1%float 0.01%float self))
      = ((1 - 1e20 * 1
          - 0 * PIDController.derivative_of self 1%float 0.01%float)
         / 1)%float)
  /\ (let self :=
        PIDController.__init__ (Q2Qc 1) (Q2Qc (1 # 10)) (Q2Qc 0)
          (Some (Q2Qc (-1), Q2Qc 1)) in
      let error := Q2Qc (29 # 10) in
      let dt := Q2Qc (1 # 100) in
      let stored :=
        PIDController.integral (snd (PIDController.update error dt self)) in
      (Q2Qc 1 * error + Q2Qc (1 # 10) * stored
       + Q2Qc 0 * PIDController.derivative_of self error dt)%Qc = Q2Qc 1).
Proof.
  destruct anti_windup_saturated as [Hgeneric Hexact].
  split.
  - intros self.
    destruct (Hgeneric float binary64 _ _ self 1%float 0.01%float
                (-1)%float 1%float eq_refl eq_refl eq_refl) as [Hhi _].
    exact (Hhi eq_refl).
  - intros self error dt stored.
    assert (Hki : PIDController.Ki self <> Q2Qc 0)
      by (intros E; apply (f_equal this) in E; discriminate E).
    assert (Hord : (Q2Qc (-1) <= Q2Qc 1)%Qc) by discriminate.
    destruct (Hexact self error dt (Q2Qc (-1)) (Q2Qc 1) eq_refl Hord Hki)
      as [Hhi _].
    exact (Hhi eq_refl).
Defined.

(** C1 does not hold as stated: in binary64 the recomputed sum is not the
    bound.  With [Kp = 1e20], [Ki = 1], [Kd = 0], limits [(-1, 1)] and the
    call [update(1, 0.01)] on a fresh controller, the sum [1e20] exceeds
    [hi = 1] and [update] returns [1]; the integral it stores is
    [(1 - 1e20) / 1], which is [-1e20], and
    [Kp*error + Ki*integral + Kd*derivative] is [0].  With the everyday
    gains [Kp = 1], [Ki = 0.1], [Kd = 0], the same limits and the call
    [update(2.9, 0.01)], the integral stored is [-18.999999999999996] and
    the recomputed sum is [1.0000000000000002]. *)
Lemma anti_windup_binary64_counterexample :
  (let self :=
     PIDController.__init__ 1e20%float 1%float 0%float
       (Some ((-1)%float, 1%float)) in
   let r := PIDController.update (H := binary64) 1%float 0.01%float self in
   PIDController.output_limits self = Some ((-1)%float, 1%float)
   /\ PrimFloat.ltb (-1)%float 1%float = true
   /\ PrimFloat.eqb (PIDController.Ki self) 0%float = false
   /\ PrimFloat.ltb 1%float
        (PIDController.unsaturated self 1%float 0.01%float) = true
   /\ fst r = Ok 1%float
   /\ PIDController.integral (snd r) = (-1e20)%float
   /\ (PIDController.Kp self * 1
       + PIDController.Ki self * PIDController.integral (snd r)
       + PIDController.Kd self
         * PIDController.derivative_of self 1%float 0.01%float)%float
      = 0%float
   /\ PrimFloat.eqb 0%float 1%float = false)
  /\ (let self :=
        PIDController.__init__ 1%float 0.1%float 0%float
          (Some ((-1)%float, 1%float)) in
      let r :=
        PIDController.update (H := binary64) 2.9%float 0.01%float self in
      PIDController.output_limits self = Some ((-1)%float, 1%float)
      /\ PrimFloat.eqb (PIDController.Ki self) 0%float = false
      /\ PrimFloat.ltb 1%float
           (PIDController.unsaturated self 2.9%float 0.01%float) = true
      /\ fst r = Ok 1%float
      /\ PIDController.integral (snd r) = (-18.999999999999996)%float
      /\ (PIDController.Kp self * 2.9
          + PIDController.Ki self * PIDController.integral (snd r)
          + PIDController.Kd self
            * PIDController.derivative_of self 2.9%float 0.01%float)%float
         = 1.0000000000000002%float
      /\ PrimFloat.eqb 1.0000000000000002%float 1%float = false).
Proof.
  vm_compute. repeat split.
Qed.

(** ** The plant *)

Section SystemSimulation_facts.
Context {F : Type} `{PyFloatLaws F}.
Import SystemSimulation.
Local Open Scope pyfloat_scope.

Lemma init_first_order (params : gmap string F) :
  __init__ "First Order" params
  = Ok (set_gain (get_default params "gain" fone)
          (set_time_constant (get_default params "time_constant" fone)
             (blank "First Order" params))).
Proof. reflexivity. Qed.

Lemma init_second_order (params : gmap string F) :
  __init__ "Second Order" params
  = Ok (set_gain (get_default params "gain" fone)
          (set_natural_freq (get_default params "natural_freq" fone)
             (set_damping (get_default params "damping" fhalf)
                (blank "Second Order" params)))).
Proof. reflexivity. Qed.

Lemma init_integrator (params : gmap string F) :
  __init__ "Integrator" params
  = Ok (set_gain (get_default params "gain" fone)
          (blank "Integrator" params)).
Proof. reflexivity. Qed.

Lemma init_unrecognized (ty : string) (params : gmap string F) :
  ~ recognized ty ->
  __init__ ty params = Raise (ValueError ("Unknown system type: " ++ ty)).
Proof.
  intros Hty. unfold recognized in Hty.
  unfold __init__, _initialize_system, bind, get, raise. cbn.
  destruct (String.eqb_spec ty "First Order"); [tauto|].
  destruct (String.eqb_spec ty "Second Order"); [tauto|].
  destruct (String.eqb_spec ty "Integrator"); [tauto|].
  reflexivity.
Qed.

(** C5.  Constructing a plant with a [system_type] that is none of
    "First Order", "Second Order" and "Integrator" raises the [ValueError]
    "Unknown system type: ..." from the constructor, whatever [params] is: no
    object is built and no variant is chosen in its place.  With one of the
    three tags the constructor returns an object of that type. *)
Theorem init_unknown_system_type (ty : string) (params : gmap string F) :
  (~ recognized ty ->
   __init__ ty params = Raise (ValueError ("Unknown system type: " ++ ty)))
  /\ (recognized ty ->
      exists self,
        __init__ ty params = Ok self
        /\ system_type self = ty
        /\ SystemSimulation.params self = params).
Proof.
  split; [apply init_unrecognized|].
  intros [-> | [-> | ->]]; eexists;
    (split; [first [apply init_first_order | apply init_second_order
                   | apply init_integrator]|]);
    split; reflexivity.
Qed.

(** C10.  For each of the three recognized tags the constructor succeeds
    whatever [params] holds, and every parameter that [params] lacks takes
    its default: [time_constant] and [gain] default to [1.0] for
    "First Order"; [damping] to [0.5], [natural_freq] and [gain] to [1.0] for
    "Second Order"; [gain] to [1.0] for "Integrator".  The constructor raises
    exactly when the tag is not recognized. *)
Theorem init_defaults (ty : string) (params : gmap string F) :
  (ty = "First Order" ->
   exists self,
     __init__ ty params = Ok self
     /\ time_constant self = Some (get_default params "time_constant" fone)
     /\ gain self = Some (get_default params "gain" fone))
  /\ (ty = "Second Order" ->
      exists self,
        __init__ ty params = Ok self
        /\ damping self = Some (get_default params "damping" fhalf)
        /\ natural_freq self = Some (get_default params "natural_freq" fone)
        /\ gain self = Some (get_default params "gain" fone))
  /\ (ty = "Integrator" ->
      exists self,
        __init__ ty params = Ok self
        /\ gain self = Some (get_default params "gain" fone))
  /\ ((exists e, __init__ ty params = Raise e) <-> ~ recognized ty).
Proof.
  repeat split.
  - intros ->. eexists. split; [apply init_first_order|]. split; reflexivity.
  - intros ->. eexists. split; [apply init_second_order|].
    repeat split; reflexivity.
  - intros ->. eexists. split; [apply init_integrator|]. reflexivity.
  - intros [e He] [-> | [-> | ->]]; discriminate He.
  - intros Hty. eexists. apply init_unrecognized, Hty.
Qed.
End SystemSimulation_facts.

Section Plant_steps.
Context {F : Type} `{PyFloat F}.
Import SystemSimulation.
Local Open Scope pyfloat_scope.

(** C4, as the code has it.  On a "First Order" plant with time constant
    [tau] and gain [K], [update(u, dt)] evaluates [(K*u - y) / tau] with no
    test of its own.  When [tau == 0] and the numbers are Python floats, the
    division raises [ZeroDivisionError] and the plant is left as it was; when
    they are NumPy scalars, the call returns and the output becomes
    [y + ((K*u - y) / tau) * dt] with the IEEE quotient by zero.  When [tau]
    is not zero, the output becomes [y + ((K*u - y) / tau) * dt] and is
    returned. *)
Theorem first_order_update (self : t F) (u dt tau K : F) :
  system_type self = "First Order" ->
  time_constant self = Some tau ->
  gain self = Some K ->
  let y := output self in
  let y' := y + fquot (K * u - y) tau * dt in
  ((tau =? fzero) = true -> zero_division_raises = true ->
   update u dt self
   = (Raise (ZeroDivisionError "float division by zero"), self))
  /\ ((tau =? fzero) = true -> zero_division_raises = false ->
      update u dt self = (Ok (Some y'), set_output y' self))
  /\ ((tau =? fzero) = false ->
      update u dt self = (Ok (Some y'), set_output y' self)).
Proof.
  intros Hty Htau Hk y y'. subst y y'.
  destruct self; cbn in Hty, Htau, Hk; subst.
  unfold update, _update_first_order, attr, bind, get, lift, ret, modify,
    truediv.
  cbn. repeat split; repeat intros ->; reflexivity.
Qed.

(** C6.  On a "Second Order" plant in state [(y, ydot)], [update(u, dt)]
    leaves the state
    [(y + ydot*dt, ydot + (-wn*wn*y - 2*zeta*wn*ydot + wn*wn*K*u)*dt)]:
    both increments are computed from the state before the call.  The value
    returned is the new [y]; nothing else of the plant changes. *)
Theorem second_order_update (self : t F) (u dt wn zeta K : F) :
  system_type self = "Second Order" ->
  natural_freq self = Some wn ->
  damping self = Some zeta ->
  gain self = Some K ->
  let y := output self in
  let ydot := output_dot self in
  let y' := y + ydot * dt in
  let ydot' :=
    ydot + (- wn * wn * y - ftwo * zeta * wn * ydot + wn * wn * K * u) * dt in
  update u dt self = (Ok (Some y'), set_output_dot ydot' (set_output y' self))
  /\ output (snd (update u dt self)) = y'
  /\ output_dot (snd (update u dt self)) = ydot'.
Proof.
  intros Hty Hwn Hzeta Hk y ydot y' ydot'.
  assert (Hrun : update u dt self
                 = (Ok (Some y'), set_output_dot ydot' (set_output y' self))).
  { subst y y' ydot' ydot.
    destruct self; cbn in Hty, Hwn, Hzeta, Hk; subst. reflexivity. }
  rewrite Hrun. repeat split.
Qed.

(** One step of an "Integrator" plant. *)
Lemma integrator_update (self : t F) (u dt K : F) :
  system_type self = "Integrator" ->
  gain self = Some K ->
  let y' := output self + K * u * dt in
  update u dt self = (Ok (Some y'), set_output y' self).
Proof.
  intros Hty Hk y'. subst y'.
  destruct self; cbn in Hty, Hk; subst. reflexivity.
Qed.
End Plant_steps.

(** C4 at a plant with [tau = 0.0], stepped with Python floats and with
    NumPy scalars, and at one with [tau = 2.0]. *)
Lemma first_order_update_witness :
  let stuck :=
    SystemSimulation.set_gain 1%float
      (SystemSimulation.set_time_constant 0%float
         (SystemSimulation.blank "First Order" ∅)) in
  let slow :=
    SystemSimulation.set_gain 1%float
      (SystemSimulation.set_time_constant 2%float
         (SystemSimulation.blank "First Order" ∅)) in
  SystemSimulation.update (H := binary64) 1%float 0.5%float stuck
  = (Raise (ZeroDivisionError "float division by zero"), stuck)
  /\ SystemSimulation.update (H := numpy_float64) 1%float 0.5%float stuck
     = (Ok (Some (0 + (1 * 1 - 0) / 0 * 0.5)%float),
        SystemSimulation.set_output (0 + (1 * 1 - 0) / 0 * 0.5)%float stuck)
  /\ SystemSimulation.update (H := binary64) 1%float 0.5%float slow
     = (Ok (Some (0 + (1 * 1 - 0) / 2 * 0.5)%float),
        SystemSimulation.set_output (0 + (1 * 1 - 0) / 2 * 0.5)%float slow).
Proof.
  intros stuck slow. split; [|split].
  - exact (proj1 (first_order_update (H := binary64)
                    stuck 1%float 0.5%float 0%float 1%float
                    eq_refl eq_refl eq_refl) eq_refl eq_refl).
  - exact (proj1 (proj2 (first_order_update (H := numpy_float64)
                           stuck 1%float 0.5%float 0%float 1%float
                           eq_refl eq_refl eq_refl)) eq_refl eq_refl).
  - exact (proj2 (proj2 (first_order_update (H := binary64)
                           slow 1%float 0.5%float 2%float 1%float
                           eq_refl eq_refl eq_refl)) eq_refl).
Defined.

(** C4 does not hold as stated.  The plant built by
    [SystemSimulation("First Order", {"time_constant": 0.0})] answers
    [update(1.0, 0.01)] with the interpreter's
    [ZeroDivisionError("float division by zero")], raised by the division
    itself: it is not a [ValueError], the only exception that the program
    raises on its parameters.  Called with a NumPy scalar, as the simulation
    loop calls it, the same plant raises nothing: it returns [inf] and keeps
    it as its output. *)
Lemma first_order_zero_time_constant_counterexample :
  match
    SystemSimulation.__init__ (H := binary64) "First Order"
      (<["time_constant" := 0%float]> ∅)
  with
  | Ok self =>
      SystemSimulation.time_constant self = Some 0%float
      /\ SystemSimulation.update (H := binary64) 1%float 0.01%float self
         = (Raise (ZeroDivisionError "float division by zero"), self)
      /\ (forall msg,
            fst (SystemSimulation.update (H := binary64)
                   1%float 0.01%float self)
            <> Raise (ValueError msg))
      /\ SystemSimulation.update (H := numpy_float64) 1%float 0.01%float self
         = (Ok (Some infinity),
            SystemSimulation.set_output infinity self)
  | Raise _ => False
  end.
Proof.
  vm_compute. split; [reflexivity|]. split; [reflexivity|].
  split; [|reflexivity]. intros msg. discriminate.
Qed.

(** C5 at the tag "Quadratic", which is not recognized, and at
    "Integrator". *)
Lemma init_unknown_system_type_witness :
  SystemSimulation.__init__ (F := float) "Quadratic" ∅
  = Raise (ValueError "Unknown system type: Quadratic")
  /\ exists self,
       SystemSimulation.__init__ (F := float) "Integrator" ∅ = Ok self
       /\ SystemSimulation.system_type self = "Integrator"
       /\ SystemSimulation.params self = ∅.
Proof.
  split.
  - apply (proj1 (init_unknown_system_type (F := float) "Quadratic" ∅)).
    exact (bool_decide_unpack
             (~ SystemSimulation.recognized "Quadratic") I).
  - apply (proj2 (init_unknown_system_type (F := float) "Integrator" ∅)).
    right. right. reflexivity.
Defined.

(** C10 at the empty dictionary, for "Second Order": all three defaults. *)
Lemma init_defaults_witness :
  exists self,
    SystemSimulation.__init__ (F := float) "Second Order" ∅ = Ok self
    /\ SystemSimulation.damping self = Some 0.5%float
    /\ SystemSimulation.natural_freq self = Some 1%float
    /\ SystemSimulation.gain self = Some 1%float.
Proof.
  destruct (init_defaults (F := float) "Second Order" ∅) as (_ & Hso & _).
  exact (Hso eq_refl).
Defined.

(** C6 at the plant of the dashboard's defaults ([damping = 0.5],
    [natural_freq = 1.0], [gain = 1.0]) in the state [(2.0, 3.0)]. *)
Lemma second_order_update_witness :
  let self :=
    SystemSimulation.set_output_dot 3%float
      (SystemSimulation.set_output 2%float
         (SystemSimulation.set_gain 1%float
            (SystemSimulation.set_natural_freq 1%float
               (SystemSimulation.set_damping 0.5%float
                  (SystemSimulation.blank "Second Order" ∅))))) in
  let y' := (2 + 3 * 0.01)%float in
  let ydot' :=
    (3 + (- (1) * 1 * 2 - 2 * 0.5 * 1 * 3 + 1 * 1 * 1 * 4) * 0.01)%float in
  SystemSimulation.update 4%float 0.01%float self
  = (Ok (Some y'),
     SystemSimulation.set_output_dot ydot'
       (SystemSimulation.set_output y' self))
  /\ SystemSimulation.output
       (snd (SystemSimulation.update 4%float 0.01%float self)) = y'
  /\ SystemSimulation.output_dot
       (snd (SystemSimulation.update 4%float 0.01%float self)) = ydot'.
Proof.
  intros self y' ydot'.
  exact (second_order_update self 4%float 0.01%float 1%float 0.5%float
           1%float eq_refl eq_refl eq_refl eq_refl).
Defined.

(** *** The integrator, in exact arithmetic and in binary64 *)

Section Exact_plant.
Import SystemSimulation.
Local Open Scope Qc_scope.

Lemma Qc_of_nat_S (n : nat) : Qc_of_nat (S n) = Qc_of_nat n + 1.
Proof.
  unfold Qc_of_nat. apply Qc_is_canon. cbn [this Qcplus Q2Qc].
  rewrite !Qred_correct, Nat2Z.inj_succ. unfold Z.succ.
  rewrite inject_Z_plus. reflexivity.
Qed.

(** [n] further steps of an integrator that has made [m] steps. *)
Lemma integrator_run_from (n m : nat) (self : t Qc) (K u dt : Qc) :
  system_type self = "Integrator" ->
  gain self = Some K ->
  output self = K * u * Qc_of_nat m * dt ->
  let r := run (repeat (u, dt) n) self in
  fst r = map (fun k => Ok (Some (K * u * Qc_of_nat (S k) * dt))) (seq m n)
  /\ output (snd r) = K * u * Qc_of_nat (m + n) * dt.
Proof.
  revert m self. induction n as [|n IH]; intros m self Hty Hk Hy; cbn zeta.
  - cbn. rewrite Nat.add_0_r. split; [reflexivity|exact Hy].
  - cbn [repeat run].
    rewrite (integrator_update self u dt K Hty Hk).
    assert (Hstep : (output self + K * u * dt)%F
                    = K * u * Qc_of_nat (S m) * dt).
    { exact_ops. rewrite Hy, Qc_of_nat_S. ring. }
    rewrite Hstep.
    specialize (IH (S m) (set_output (K * u * Qc_of_nat (S m) * dt) self)
                  Hty Hk eq_refl).
    cbn zeta in IH.
    destruct (run (repeat (u, dt) n)
                (set_output (K * u * Qc_of_nat (S m) * dt) self))
      as [outs final].
    cbn [fst snd] in *. destruct IH as [-> ->].
    split; [reflexivity|]. now rewrite Nat.add_succ_r.
Qed.

(** C9, as the code has it.  Evaluated in exact arithmetic: on an
    "Integrator" plant with gain [K] and output [0], [n] calls of
    [update(u, dt)] all succeed, the [k]-th of them returns [K*u*k*dt], and
    the output after them is [K*u*n*dt], for every [n]. *)
Theorem integrator_exact (self : t Qc) (K u dt : Qc) (n : nat) :
  system_type self = "Integrator" ->
  gain self = Some K ->
  output self = 0 ->
  let r := run (repeat (u, dt) n) self in
  fst r = map (fun k => Ok (Some (K * u * Qc_of_nat (S k) * dt))) (seq 0 n)
  /\ output (snd r) = K * u * Qc_of_nat n * dt.
Proof.
  intros Hty Hk Hy.
  apply (integrator_run_from n 0 self K u dt Hty Hk).
  rewrite Hy. change (Qc_of_nat 0) with 0. ring.
Qed.
End Exact_plant.

(** C9 in exact arithmetic at [K = 2], [u = 3], [dt = 1/100] and [n = 5]:
    the output is [3/10]. *)
Lemma integrator_exact_witness :
  match SystemSimulation.__init__ "Integrator" (<["gain" := Q2Qc 2]> ∅) with
  | Ok self =>
      SystemSimulation.output
        (snd (SystemSimulation.run
                (repeat (Q2Qc 3, Q2Qc (1 # 100)) 5) self))
      = (Q2Qc 2 * Q2Qc 3 * Qc_of_nat 5 * Q2Qc (1 # 100))%Qc
  | Raise _ => False
  end.
Proof.
  change (SystemSimulation.__init__ "Integrator" (<["gain" := Q2Qc 2]> ∅))
    with (Ok (SystemSimulation.set_gain (Q2Qc 2)
                (SystemSimulation.blank "Integrator"
                   (<["gain" := Q2Qc 2]> ∅)))).
  exact (proj2 (integrator_exact
                  (SystemSimulation.set_gain (Q2Qc 2)
                     (SystemSimulation.blank "Integrator"
                        (<["gain" := Q2Qc 2]> ∅)))
                  (Q2Qc 2) (Q2Qc 3) (Q2Qc (1 # 100)) 5
                  eq_refl eq_refl eq_refl)).
Defined.

(** C9 does not hold as stated.  In binary64, the plant built by
    [SystemSimulation("Integrator", {"gain": 1.0})] and stepped six times
    with [update(1.0, 0.01)] has output [0.060000000000000005], which the
    sixth call returns, while [K*u*n*dt = 1.0*1.0*6*0.01] is [0.06]. *)
Lemma integrator_binary64_counterexample :
  match
    SystemSimulation.__init__ (H := binary64) "Integrator"
      (<["gain" := 1%float]> ∅)
  with
  | Ok self =>
      let r :=
        SystemSimulation.run (H := binary64)
          (repeat (1%float, 0.01%float) 6) self in
      SystemSimulation.gain self = Some 1%float
      /\ SystemSimulation.output self = 0%float
      /\ SystemSimulation.output (snd r) = 0.060000000000000005%float
      /\ last (fst r) = Some (Ok (Some 0.060000000000000005%float))
      /\ (1 * 1 * float_of_nat 6 * 0.01)%float = 0.06%float
      /\ PrimFloat.eqb 0.060000000000000005%float 0.06%float = false
  | Raise _ => False
  end.
Proof.
  vm_compute. repeat split.
Qed.

(** ** The simulation run *)

Section Arrays.
Context {F : Type} `{PyFloat F}.
Local Open Scope pyfloat_scope.

Lemma zeros_length (n : Z) (a : list F) :
  np.zeros n = Ok a -> length a = Z.to_nat n.
Proof.
  unfold np.zeros. destruct (n <? 0)%Z; [discriminate|].
  intros [= <-]. apply repeat_length.
Qed.

Lemma full_length (n : Z) (v : F) (a : list F) :
  np.full n v = Ok a -> length a = Z.to_nat n.
Proof.
  unfold np.full. destruct (n <? 0)%Z; [discriminate|].
  intros [= <-]. apply repeat_length.
Qed.

Lemma linspace_length (start stop : F) (num : Z) (a : list F) :
  np.linspace start stop num = Ok a -> length a = Z.to_nat num.
Proof.
  unfold np.linspace. destruct (num <? 0)%Z; [discriminate|].
  intros [= <-].
  repeat match goal with
         | |- context [if ?b then _ else _] => destruct b
         end;
    rewrite ?length_insert, ?length_map, ?length_seq; reflexivity.
Qed.

Lemma setitem_length (a a' : list F) (i : Z) (v : F) :
  np.setitem a i v = Ok a' -> length a' = length a.
Proof.
  unfold np.setitem. destruct (np.index a i); [|discriminate].
  intros [= <-]. apply length_insert.
Qed.
End Arrays.

Section Run.
Context {F : Type} `{PyFloat F}.
Import pid_playground.
Local Open Scope pyfloat_scope.

(** A step of a sequence of bound calls that returned went through. *)
Lemma rbind_Ok {A B} (r : result A) (k : A -> result B) (b : B) :
  rbind r k = Ok b -> exists a, r = Ok a /\ k a = Ok b.
Proof. destruct r as [a|e]; [eauto|discriminate]. Qed.

Lemma loop_body_lengths (setpoint dt : F) (st st' : loop_state F) (i : Z) :
  loop_body setpoint dt st i = Ok st' ->
  length (output_a st') = length (output_a st)
  /\ length (control_signal_a st') = length (control_signal_a st)
  /\ length (error_a st') = length (error_a st).
Proof.
  unfold loop_body. intros Hrun.
  repeat match type of Hrun with
         | rbind _ _ = Ok _ =>
             let a := fresh "a" in
             let Ha := fresh "Ha" in
             apply rbind_Ok in Hrun as (a & Ha & Hrun)
         | match ?p with pair _ _ => _ end = Ok _ => destruct p
         end.
  injection Hrun as <-. cbn.
  repeat match goal with
         | Hs : np.setitem _ _ _ = Ok _ |- _ =>
             apply setitem_length in Hs; rewrite Hs; clear Hs
         end.
  repeat split.
Qed.

Lemma for_range_lengths (setpoint dt : F) (indices : list Z)
  (st st' : loop_state F) :
  for_range (loop_body setpoint dt) indices st = Ok st' ->
  length (output_a st') = length (output_a st)
  /\ length (control_signal_a st') = length (control_signal_a st)
  /\ length (error_a st') = length (error_a st).
Proof.
  revert st. induction indices as [|i rest IH]; intros st; cbn.
  - intros [= <-]. repeat split.
  - intros Hrun. apply rbind_Ok in Hrun as (st1 & Hbody & Hrest).
    apply loop_body_lengths in Hbody as (Ho & Hc & He).
    apply IH in Hrest as (Ho' & Hc' & He').
    rewrite Ho', Hc', He', Ho, Hc, He. repeat split.
Qed.

(** Every run that completes delivers five arrays of [int(sim_time / dt)]
    entries. *)
Lemma main_lengths (Kp Ki Kd setpoint_value sim_time : F)
  (ty : string) (system_params : gmap string F) (d : simulation_data F) :
  main Kp Ki Kd setpoint_value sim_time ty system_params = Ok d ->
  exists q time_steps,
    truediv sim_time fcenti = Ok q
    /\ to_int q = Ok time_steps
    /\ length (time d) = Z.to_nat time_steps
    /\ length (setpoint d) = Z.to_nat time_steps
    /\ length (output d) = Z.to_nat time_steps
    /\ length (control_signal d) = Z.to_nat time_steps
    /\ length (error d) = Z.to_nat time_steps.
Proof.
  unfold main. intros Hrun.
  apply rbind_Ok in Hrun as (sys & _ & Hrun).
  apply rbind_Ok in Hrun as (q & Hq & Hrun).
  apply rbind_Ok in Hrun as (time_steps & Hn & Hrun).
  apply rbind_Ok in Hrun as (time_array & Ht & Hrun).
  apply rbind_Ok in Hrun as (setpoint_array & Hs & Hrun).
  apply rbind_Ok in Hrun as (output0 & Ho & Hrun).
  apply rbind_Ok in Hrun as (control0 & Hc & Hrun).
  apply rbind_Ok in Hrun as (error0 & He & Hrun).
  apply rbind_Ok in Hrun as (output1 & Ho1 & Hrun).
  apply rbind_Ok in Hrun as (st & Hloop & Hrun).
  apply rbind_Ok in Hrun as (y & _ & Hrun).
  apply rbind_Ok in Hrun as (error1 & He1 & Hrun).
  apply rbind_Ok in Hrun as (u & _ & Hrun).
  apply rbind_Ok in Hrun as (control1 & Hc1 & Hrun).
  injection Hrun as <-. cbn.
  apply for_range_lengths in Hloop as (Hlo & Hlc & Hle). cbn in Hlo, Hlc, Hle.
  apply linspace_length in Ht. apply full_length in Hs.
  apply zeros_length in Ho, Hc, He.
  apply setitem_length in Ho1, He1, Hc1.
  exists q, time_steps. repeat split; congruence.
Qed.
End Run.

Section Time_axis.
Context {F : Type} `{PyFloat F}.
Local Open Scope pyfloat_scope.

(** The samples of [linspace] for two points or more and a step that is not
    zero: [i * step + start], and [stop] itself for the last one. *)
Lemma linspace_lookup (start stop : F) (num : Z) (a : list F) (i : nat) :
  np.linspace start stop num = Ok a ->
  (2 <= num)%Z ->
  let n := Z.to_nat num in
  let step := fquot (stop - start) (of_nat (n - 1)) in
  (step =? fzero) = false ->
  (i < n)%nat ->
  a !! i = Some (if (i =? n - 1)%nat then stop else of_nat i * step + start).
Proof.
  intros Hrun Hnum n step Hstep Hi.
  unfold np.linspace in Hrun.
  destruct (num <? 0)%Z eqn:Hneg; [lia|].
  fold n in Hrun. fold step in Hrun.
  assert (Hdiv : (0 <? n - 1)%nat = true) by (apply Nat.ltb_lt; lia).
  assert (Hn1 : (1 <? n)%nat = true) by (apply Nat.ltb_lt; lia).
  rewrite Hdiv, Hstep, Hn1 in Hrun. injection Hrun as <-.
  destruct (Nat.eqb_spec i (n - 1)) as [-> | Hne].
  - apply list_lookup_insert_eq. rewrite !length_map, length_seq. lia.
  - rewrite list_lookup_insert_ne by congruence.
    rewrite !list_lookup_fmap, lookup_seq_lt by exact Hi. reflexivity.
Qed.
End Time_axis.

(** C2, on the code.  At the dashboard's defaults ([Kp = 1.0], [Ki = 0.1],
    [Kd = 0.05], setpoint [10.0], "Second Order" with [damping = 0.5] and
    [natural_freq = 1.0]) and [sim_time = 20.0], the run completes and the
    arrays [time], [output], [control_signal] and [error] all have
    [N = int(20.0 / 0.01) = 2000] entries; but [time] is
    [linspace(0, 20.0, 2000)], whose samples are [20/1999] apart:
    [time[1]] is [0.010005002501250625] and not [1 * dt = 0.01], and
    [time[1999]] is [20.0] and not [1999 * dt = 19.990000000000002]. *)
Theorem main_time_axis_default :
  match
    pid_playground.main (H := numpy_float64)
      1%float 0.1%float 0.05%float 10%float 20%float "Second Order"
      (<["damping" := 0.5%float]> (<["natural_freq" := 1%float]> ∅))
  with
  | Ok d =>
      to_int (20 / 0.01)%float = Ok 2000%Z
      /\ length (pid_playground.time d) = 2000%nat
      /\ length (pid_playground.output d) = 2000%nat
      /\ length (pid_playground.control_signal d) = 2000%nat
      /\ length (pid_playground.error d) = 2000%nat
      /\ pid_playground.time d !! 0%nat = Some 0%float
      /\ pid_playground.time d !! 1%nat = Some 0.010005002501250625%float
      /\ (float_of_nat 1 * 0.01)%float = 0.01%float
      /\ PrimFloat.eqb 0.010005002501250625%float 0.01%float = false
      /\ pid_playground.time d !! 1999%nat = Some 20%float
      /\ (float_of_nat 1999 * 0.01)%float = 19.990000000000002%float
  | Raise _ => False
  end.
Proof.
  vm_compute. repeat split.
Qed.

(** * Further properties *)

(** ** The order of the floats *)

Lemma float_ltb_irrefl (x : float) : PrimFloat.ltb x x = false.
Proof.
  rewrite FloatAxioms.ltb_spec. unfold SFltb.
  destruct (Prim2SF x) as [s | s | | s m e]; try destruct s; cbn;
    rewrite ?Z.compare_refl, ?Pos.compare_cont_refl; reflexivity.
Qed.

Lemma Qc_ltb_irrefl (x : Qc) : Qc_ltb x x = false.
Proof.
  destruct (Qc_ltb x x) eqn:E; [|reflexivity].
  apply Qc_ltb_lt in E. now apply Qclt_not_eq in E.
Qed.

#[export] Instance binary64_order : @PyFloatOrder float binary64.
Proof. split. exact float_ltb_irrefl. Qed.

#[export] Instance numpy_float64_order : @PyFloatOrder float numpy_float64.
Proof. split. exact float_ltb_irrefl. Qed.

#[export] Instance exact_order : @PyFloatOrder Qc exact.
Proof. split. exact Qc_ltb_irrefl. Qed.

(** ** The controller, continued *)

Section PIDController_more.
Context {F : Type} `{PyFloatLaws F} `{!PyFloatOrder F}.
Import PIDController.
Local Open Scope pyfloat_scope.

(** X1.  [update] raises nothing, whatever the error and the time step are
    (zero, negative, not a number): both divisions are guarded.  It leaves
    the gains and the limits as they were and always records the error. *)
Theorem update_never_raises (self : t F) (error dt : F) :
  exists out self',
    update error dt self = (Ok out, self')
    /\ Kp self' = Kp self /\ Ki self' = Ki self /\ Kd self' = Kd self
    /\ output_limits self' = output_limits self
    /\ previous_error self' = error.
Proof.
  do 2 eexists. rewrite update_run. cbn. repeat split.
Qed.

(** A value between limits [lo <= hi] is returned as it is or replaced by
    one of the limits: the result is neither above [hi] nor below [lo]. *)
Lemma saturate_within (lo hi output : F) :
  (hi <? lo) = false ->
  (saturate (Some (lo, hi)) output >? hi) = false
  /\ (saturate (Some (lo, hi)) output <? lo) = false.
Proof.
  intros Hord. cbn.
  destruct (output >? hi) eqn:Hhi.
  - split; [apply flt_irrefl|exact Hord].
  - destruct (output <? lo) eqn:Hlo.
    + split; [exact Hord|apply flt_irrefl].
    + split; assumption.
Qed.

(** X2.  On a controller whose limits [(lo, hi)] are in order, every call of a
    sequence of [update] calls returns a value that is neither greater than
    [hi] nor less than [lo]. *)
Theorem run_within_limits (calls : list (F * F)) (self : t F) (lo hi : F) :
  output_limits self = Some (lo, hi) ->
  (hi <? lo) = false ->
  Forall (fun oc : result F * result (F * F * F) =>
            exists r, fst oc = Ok r
                      /\ (r >? hi) = false /\ (r <? lo) = false)
    (fst (run calls self)).
Proof.
  revert self. induction calls as [|[error dt] rest IH]; intros self Hlim Hord.
  - constructor.
  - cbn [run]. rewrite update_run.
    unfold get_components, bind, get, ret. cbn [proportional_term
      integral_term derivative_term].
    match goal with
    | |- context [run rest ?s] =>
        specialize (IH s Hlim Hord); destruct (run rest s) as [outs final]
    end.
    cbn [fst] in *. constructor; [|exact IH].
    eexists. split; [reflexivity|]. rewrite Hlim.
    apply saturate_within, Hord.
Qed.

(** X3.  With [Ki == 0] a saturated call returns the limit it met and sets the
    stored integral to zero: what had been accumulated is dropped. *)
Theorem update_saturated_zero_Ki (self : t F) (error dt : F) :
  (Ki self =? fzero) = true ->
  clamped (output_limits self) (unsaturated self error dt) = true ->
  fst (update error dt self)
  = Ok (saturate (output_limits self) (unsaturated self error dt))
  /\ integral (snd (update error dt self)) = fzero.
Proof.
  intros Hki Hclamp. rewrite update_run. cbn [fst snd integral].
  split; [reflexivity|].
  unfold clamped in Hclamp.
  destruct (output_limits self) as [[lo hi]|]; [|discriminate].
  rewrite Hki. cbn [negb].
  destruct (unsaturated self error dt >? hi); [reflexivity|].
  cbn in Hclamp. rewrite Hclamp. reflexivity.
Qed.

(** The state after a sequence of calls without limits. *)
Lemma run_unlimited_state (calls : list (F * F)) (self : t F) :
  output_limits self = None ->
  let final := snd (run calls self) in
  integral final = accumulate (integral self) calls
  /\ previous_error final
     = match last calls with
       | Some c => fst c
       | None => previous_error self
       end
  /\ output_limits final = None.
Proof.
  revert self. induction calls as [|[error dt] rest IH]; intros self Hlim.
  - cbn. repeat split. exact Hlim.
  - cbn [run]. rewrite update_run.
    unfold get_components, bind, get, ret.
    match goal with
    | |- context [run rest ?s] =>
        assert (Hs : output_limits s = None) by exact Hlim;
        specialize (IH s Hs); cbn zeta in IH;
        destruct (run rest s) as [outs final]
    end.
    cbn [snd] in *. destruct IH as (Hint & Hprev & Hlim').
    rewrite Hint, Hprev. cbn [integral previous_error]. rewrite Hlim.
    repeat split; [|exact Hlim'].
    destruct rest as [|c rest']; [reflexivity|].
    change (last ((error, dt) :: c :: rest')) with (last (c :: rest')).
    destruct (last (c :: rest')) eqn:E; [reflexivity|].
    apply last_None in E. discriminate E.
Qed.

(** X4.  Without limits, a sequence of [update] calls leaves the stored integral
    at the sum, taken in order, of the products [error * dt] added to the
    integral it started from, and [previous_error] at the error of the last
    call. *)
Theorem run_unlimited_integral (calls : list (F * F)) (self : t F) :
  output_limits self = None ->
  let final := snd (run calls self) in
  integral final = accumulate (integral self) calls
  /\ previous_error final
     = match last calls with
       | Some c => fst c
       | None => previous_error self
       end
  /\ output_limits final = None.
Proof. apply run_unlimited_state. Qed.
End PIDController_more.

Section Exact_controller_more.
Import PIDController.
Local Open Scope Qc_scope.

Lemma accumulate_le (calls : list (Qc * Qc)) (i0 : Qc) :
  Forall (fun c : Qc * Qc => 0 <= fst c * snd c) calls ->
  i0 <= accumulate i0 calls.
Proof.
  revert i0. induction calls as [|c rest IH]; intros i0 Hpos.
  - apply Qcle_refl.
  - inversion Hpos as [|c' rest' Hc Hrest]; subst.
    unfold accumulate. cbn [fold_left]. exact_ops.
    apply Qcle_trans with (i0 + fst c * snd c); [|apply IH, Hrest].
    rewrite <- (Qcplus_0_r i0) at 1.
    apply Qcplus_le_compat; [apply Qcle_refl|exact Hc].
Qed.

Lemma accumulate_ge (calls : list (Qc * Qc)) (i0 : Qc) :
  Forall (fun c : Qc * Qc => fst c * snd c <= 0) calls ->
  accumulate i0 calls <= i0.
Proof.
  revert i0. induction calls as [|c rest IH]; intros i0 Hneg.
  - apply Qcle_refl.
  - inversion Hneg as [|c' rest' Hc Hrest]; subst.
    unfold accumulate. cbn [fold_left]. exact_ops.
    apply Qcle_trans with (i0 + fst c * snd c); [apply IH, Hrest|].
    rewrite <- (Qcplus_0_r i0) at 2.
    apply Qcplus_le_compat; [apply Qcle_refl|exact Hc].
Qed.

(** X5.  In exact arithmetic and without limits, the stored integral moves with
    the sign of the error: it does not decrease over a sequence of calls
    whose errors and time steps are all non-negative, and does not increase
    over one whose errors are all non-positive. *)
Theorem integral_monotone (calls : list (Qc * Qc)) (self : t Qc) :
  output_limits self = None ->
  Forall (fun c : Qc * Qc => 0 <= snd c) calls ->
  (Forall (fun c : Qc * Qc => 0 <= fst c) calls ->
   integral self <= integral (snd (run calls self)))
  /\ (Forall (fun c : Qc * Qc => fst c <= 0) calls ->
      integral (snd (run calls self)) <= integral self).
Proof.
  intros Hlim Hdt.
  destruct (run_unlimited_state calls self Hlim) as (-> & _).
  split; intros Herr.
  - apply accumulate_le.
    rewrite Forall_forall in *. intros c Hc.
    rewrite <- (Qcmult_0_l (snd c)).
    apply Qcmult_le_compat_r; [apply Herr, Hc|apply Hdt, Hc].
  - apply accumulate_ge.
    rewrite Forall_forall in *. intros c Hc.
    rewrite <- (Qcmult_0_l (snd c)).
    apply Qcmult_le_compat_r; [apply Herr, Hc|apply Hdt, Hc].
Qed.

(** X6.  In exact arithmetic, with [Ki > 0]: a call that saturates at [hi]
    stores an integral smaller than the accumulated [integral + error*dt]
    it replaces, and a call that saturates at [lo] a greater one. *)
Theorem anti_windup_pulls_back (self : t Qc) (error dt lo hi : Qc) :
  output_limits self = Some (lo, hi) ->
  0 < Ki self ->
  let output := unsaturated self error dt in
  let stored := integral (snd (update error dt self)) in
  (hi < output -> stored < integral self + error * dt)
  /\ (~ hi < output -> output < lo -> integral self + error * dt < stored).
Proof.
  intros Hlim Hki output stored.
  assert (Hne : Ki self <> 0)
    by (intros E; rewrite E in Hki; now apply Qclt_not_eq in Hki).
  destruct (saturated_integral_exact self error dt lo hi Hlim Hne)
    as [Hhi Hlo].
  fold output in Hhi, Hlo. fold stored in Hhi, Hlo.
  assert (Hsum : output
                 = Kp self * error + Ki self * (integral self + error * dt)
                   + Kd self * derivative_of self error dt) by reflexivity.
  split.
  - intros Hout. pose proof (Hhi Hout) as Hid.
    apply Qcnot_le_lt. intros Hle.
    apply (Qcmult_le_compat_r _ _ (Ki self)) in Hle;
      [|now apply Qclt_le_weak].
    apply (Qclt_not_le _ _ Hout). rewrite Hsum, <- Hid.
    apply Qcplus_le_compat; [|apply Qcle_refl].
    apply Qcplus_le_compat; [apply Qcle_refl|].
    rewrite !(Qcmult_comm (Ki self)). exact Hle.
  - intros Hnhi Hout. pose proof (Hlo Hnhi Hout) as Hid.
    apply Qcnot_le_lt. intros Hle.
    apply (Qcmult_le_compat_r _ _ (Ki self)) in Hle;
      [|now apply Qclt_le_weak].
    apply (Qclt_not_le _ _ Hout). rewrite Hsum, <- Hid.
    apply Qcplus_le_compat; [|apply Qcle_refl].
    apply Qcplus_le_compat; [apply Qcle_refl|].
    rewrite !(Qcmult_comm (Ki self)). exact Hle.
Qed.
End Exact_controller_more.

(** ** The plant, continued *)

Section SystemSimulation_more.
Context {F : Type} `{PyFloat F}.
Import SystemSimulation.
Local Open Scope pyfloat_scope.

(** One step of a "First Order" plant, both outcomes. *)
Lemma first_order_step (self : t F) (u dt tau K : F) :
  system_type self = "First Order" ->
  time_constant self = Some tau ->
  gain self = Some K ->
  update u dt self
  = if ((tau =? fzero) && zero_division_raises)%bool
    then (Raise division_error, self)
    else let y' := output self + fquot (K * u - output self) tau * dt in
         (Ok (Some y'), set_output y' self).
Proof.
  intros Hty Htau Hk.
  destruct self; cbn in Hty, Htau, Hk; subst.
  unfold update, _update_first_order, attr, bind, get, lift, ret, modify,
    truediv.
  cbn. destruct ((tau =? fzero) && zero_division_raises)%bool; reflexivity.
Qed.

(** One step of a "Second Order" plant. *)
Lemma second_order_step (self : t F) (u dt wn zeta K : F) :
  system_type self = "Second Order" ->
  natural_freq self = Some wn ->
  damping self = Some zeta ->
  gain self = Some K ->
  let y := output self in
  let ydot := output_dot self in
  let y' := y + ydot * dt in
  let ydot' :=
    ydot + (- wn * wn * y - ftwo * zeta * wn * ydot + wn * wn * K * u) * dt in
  update u dt self = (Ok (Some y'), set_output_dot ydot' (set_output y' self)).
Proof.
  intros Hty Hwn Hzeta Hk.
  destruct self; cbn in Hty, Hwn, Hzeta, Hk; subst. reflexivity.
Qed.

(** [update] changes nothing of a plant but its output and its rate,
    whether it returns or raises, and whatever the plant is. *)
Lemma update_configuration (self : t F) (u dt : F) :
  configuration (snd (update u dt self)) = configuration self.
Proof.
  destruct self as [ty ps y yd pin tc g dm nf].
  unfold update, _update_first_order, _update_second_order,
    _update_integrator, attr, bind, get, lift, ret, modify, truediv.
  cbn.
  destruct (String.eqb ty "First Order");
    [|destruct (String.eqb ty "Second Order");
      [|destruct (String.eqb ty "Integrator")]];
    destruct tc as [tau|], g as [K|], dm as [zeta|], nf as [wn|]; cbn;
    try (destruct ((tau =? fzero) && zero_division_raises)%bool; cbn);
    reflexivity.
Qed.

Lemma init_constructed (ty : string) (params : gmap string F) (self : t F) :
  __init__ ty params = Ok self ->
  constructed self
  /\ output self = fzero /\ output_dot self = fzero
  /\ previous_input self = fzero
  /\ system_type self = ty.
Proof.
  intros Hinit. unfold __init__, _initialize_system, bind, get in Hinit.
  cbn in Hinit. unfold constructed.
  destruct (String.eqb_spec ty "First Order") as [-> | _].
  { injection Hinit as <-. cbn. split; [|tauto].
    left. repeat split; eauto. }
  destruct (String.eqb_spec ty "Second Order") as [-> | _].
  { injection Hinit as <-. cbn. split; [|tauto].
    right. left. repeat split; eauto. }
  destruct (String.eqb_spec ty "Integrator") as [-> | _].
  { injection Hinit as <-. cbn. split; [|tauto].
    right. right. repeat split; eauto. }
  discriminate Hinit.
Qed.

Lemma constructed_configuration (self self' : t F) :
  configuration self' = configuration self ->
  constructed self -> constructed self'.
Proof.
  unfold configuration, constructed. intros [= -> _ _ -> -> -> ->]. tauto.
Qed.

(** What a step of a constructed plant can give. *)
Lemma constructed_step (self : t F) (u dt : F) :
  constructed self ->
  (exists y, fst (update u dt self) = Ok (Some y)
             /\ output (snd (update u dt self)) = y)
  \/ (fst (update u dt self) = Raise division_error
      /\ snd (update u dt self) = self
      /\ system_type self = "First Order"
      /\ zero_division_raises = true
      /\ exists tau, time_constant self = Some tau
                     /\ (tau =? fzero) = true).
Proof.
  intros [(Hty & [tau Htau] & [K Hk])
         | [(Hty & [wn Hwn] & [zeta Hzeta] & [K Hk])
           | (Hty & [K Hk])]].
  - rewrite (first_order_step self u dt tau K Hty Htau Hk).
    destruct (tau =? fzero) eqn:Hzero; cbn;
      [destruct zero_division_raises eqn:Hraise; cbn|];
      eauto 10.
  - rewrite (second_order_step self u dt wn zeta K Hty Hwn Hzeta Hk).
    left. eexists. split; reflexivity.
  - rewrite (integrator_update self u dt K Hty Hk).
    left. eexists. split; reflexivity.
Qed.

(** No sequence of calls changes the configuration of a plant. *)
Lemma run_configuration (calls : list (F * F)) (self : t F) :
  configuration (snd (run calls self)) = configuration self.
Proof.
  revert self. induction calls as [|[u dt] rest IH]; intros self;
    [reflexivity|].
  cbn [run]. pose proof (update_configuration self u dt) as Hconf.
  destruct (update u dt self) as [out s1]. cbn [snd] in Hconf.
  specialize (IH s1). destruct (run rest s1) as [outs s2].
  cbn [snd] in *. congruence.
Qed.

(** The outcomes of a run on a plant built by the constructor. *)
Lemma constructed_run_outcomes (ty : string) (params : gmap string F)
  (self : t F) (calls : list (F * F)) :
  __init__ ty params = Ok self ->
  configuration (snd (run calls self)) = configuration self
  /\ Forall (fun out : result (option F) =>
               (exists y, out = Ok (Some y))
               \/ (out = Raise division_error
                   /\ ty = "First Order"
                   /\ zero_division_raises = true
                   /\ (get_default params "time_constant" fone =? fzero)
                      = true))
       (fst (run calls self)).
Proof.
  intros Hinit.
  destruct (init_constructed ty params self Hinit)
    as (Hc & _ & _ & _ & Hty).
  assert (Htau : forall tau, time_constant self = Some tau ->
                 ty = "First Order" ->
                 tau = get_default params "time_constant" fone).
  { intros tau Htau ->. rewrite init_first_order in Hinit.
    injection Hinit as <-. cbn in Htau. congruence. }
  assert (Hgen : forall s, configuration s = configuration self ->
            configuration (snd (run calls s)) = configuration self
            /\ Forall (fun out : result (option F) =>
                 (exists y, out = Ok (Some y))
                 \/ (out = Raise division_error
                     /\ ty = "First Order"
                     /\ zero_division_raises = true
                     /\ (get_default params "time_constant" fone =? fzero)
                        = true))
                 (fst (run calls s))).
  { induction calls as [|[u dt] rest IH]; intros s Hs.
    - cbn. split; [exact Hs|constructor].
    - cbn [run].
      pose proof (constructed_step s u dt
                    (constructed_configuration self s Hs Hc)) as Hstep.
      pose proof (update_configuration s u dt) as Hconf.
      destruct (update u dt s) as [out s1]. cbn [fst snd] in *.
      destruct (IH s1 (eq_trans Hconf Hs)) as [Hfinal Houts].
      destruct (run rest s1) as [outs s2]. cbn [fst snd] in *.
      split; [exact Hfinal|]. constructor; [|exact Houts].
      destruct Hstep as [(y & -> & _)
                        | (-> & _ & Hfo & Hraise & tau & Htc & Hzero)].
      + left. eauto.
      + right. unfold configuration in Hs.
        injection Hs as Hsty _ _ Hstc _ _ _.
        assert (Hty' : ty = "First Order") by congruence.
        repeat split; try assumption.
        rewrite <- (Htau tau); [exact Hzero|congruence|exact Hty']. }
  apply Hgen. reflexivity.
Qed.

(** X7.  However a plant built by the constructor has been stepped, a call
    of [update] returns the output that the plant holds after the call,
    never [None], and the only exception it can raise is the
    [ZeroDivisionError] of a "First Order" plant whose time constant is
    zero, under the arithmetic in which division by zero raises, and that
    call leaves the plant as it was; every call of the sequence had one of
    these two outcomes, and no call changes the type, the parameters or
    [previous_input]. *)
Theorem constructed_plant_run (ty : string) (params : gmap string F)
  (self : t F) (calls : list (F * F)) (u dt : F) :
  __init__ ty params = Ok self ->
  let reached := snd (run calls self) in
  configuration reached = configuration self
  /\ configuration (snd (update u dt reached)) = configuration self
  /\ ((exists y, fst (update u dt reached) = Ok (Some y)
                 /\ output (snd (update u dt reached)) = y)
      \/ (fst (update u dt reached) = Raise division_error
          /\ snd (update u dt reached) = reached
          /\ ty = "First Order"
          /\ zero_division_raises = true
          /\ (get_default params "time_constant" fone =? fzero) = true))
  /\ Forall (fun out : result (option F) =>
               (exists y, out = Ok (Some y))
               \/ (out = Raise division_error
                   /\ ty = "First Order"
                   /\ zero_division_raises = true
                   /\ (get_default params "time_constant" fone =? fzero)
                      = true))
       (fst (run calls self)).
Proof.
  intros Hinit reached.
  destruct (constructed_run_outcomes ty params self calls Hinit)
    as [Hconf Houts].
  fold reached in Hconf.
  destruct (init_constructed ty params self Hinit)
    as (Hc & _ & _ & _ & Hty).
  split; [exact Hconf|].
  split; [rewrite update_configuration; exact Hconf|].
  split; [|exact Houts].
  destruct (constructed_step reached u dt
              (constructed_configuration self reached Hconf Hc))
    as [Hok | (Hraise & Hsame & Hfo & Hdiv & tau & Htc & Hzero)];
    [left; exact Hok|right].
  unfold configuration in Hconf. injection Hconf as Hsty _ _ Hstc _ _ _.
  assert (Hty' : ty = "First Order") by congruence.
  repeat split; try assumption.
  rewrite Hty', init_first_order in Hinit. injection Hinit as <-.
  cbn in Hstc. rewrite Htc in Hstc. injection Hstc as ->. exact Hzero.
Qed.

(** The object that [reset] leaves. *)
Lemma reset_run_plant (self : t F) :
  reset self
  = (Ok tt,
     set_previous_input fzero (set_output_dot fzero (set_output fzero self))).
Proof. reflexivity. Qed.

(** X8.  After any sequence of [update] calls on a plant built by the
    constructor, [reset] gives back the plant exactly as it was built. *)
Theorem reset_restores_constructed (ty : string) (params : gmap string F)
  (self : t F) (calls : list (F * F)) :
  __init__ ty params = Ok self ->
  reset (snd (run calls self)) = (Ok tt, self).
Proof.
  intros Hinit.
  pose proof (run_configuration calls self) as Hconf.
  destruct (init_constructed ty params self Hinit)
    as (_ & Hy & Hyd & Hpin & _).
  rewrite reset_run_plant. f_equal.
  destruct (snd (run calls self)) as [ty1 ps1 y1 yd1 pin1 tc1 g1 dm1 nf1].
  destruct self as [ty0 ps0 y0 yd0 pin0 tc0 g0 dm0 nf0].
  unfold configuration in Hconf. cbn in *.
  injection Hconf as -> -> -> -> -> -> ->. subst. reflexivity.
Qed.

(** A plant that is not "Second Order" makes no use of [output_dot]. *)
Lemma output_dot_unused (self : t F) (u dt v : F) :
  system_type self <> "Second Order" ->
  fst (update u dt (set_output_dot v self)) = fst (update u dt self)
  /\ output (snd (update u dt (set_output_dot v self)))
     = output (snd (update u dt self)).
Proof.
  intros Hty. destruct self as [ty ps y yd pin tc g dm nf]. cbn in Hty.
  unfold update, _update_first_order, _update_second_order,
    _update_integrator, attr, bind, get, lift, ret, modify, truediv.
  cbn.
  destruct (String.eqb ty "First Order");
    [|destruct (String.eqb_spec ty "Second Order"); [contradiction|];
      destruct (String.eqb ty "Integrator")];
    destruct tc as [tau|], g as [K|]; cbn;
    try (destruct ((tau =? fzero) && zero_division_raises)%bool; cbn);
    split; reflexivity.
Qed.

(** X9.  On a plant that is not "Second Order", the initial rate given to
    [set_initial_conditions] is ignored: two plants set to the same initial
    output and to different rates answer [update] with the same value and
    are left with the same output. *)
Theorem initial_rate_ignored (self : t F) (y0 v v' u dt : F) :
  system_type self <> "Second Order" ->
  let a := snd (set_initial_conditions y0 v self) in
  let b := snd (set_initial_conditions y0 v' self) in
  fst (set_initial_conditions y0 v self) = Ok tt
  /\ output a = y0
  /\ fst (update u dt a) = fst (update u dt b)
  /\ output (snd (update u dt a)) = output (snd (update u dt b)).
Proof.
  intros Hty a b.
  assert (Ha : a = set_output_dot v (set_output y0 self)) by reflexivity.
  assert (Hb : b = set_output_dot v' (set_output y0 self)) by reflexivity.
  assert (Hty0 : system_type (set_output y0 self) <> "Second Order")
    by exact Hty.
  destruct (output_dot_unused (set_output y0 self) u dt v Hty0) as [H1 H2].
  destruct (output_dot_unused (set_output y0 self) u dt v' Hty0) as [H3 H4].
  rewrite Ha, Hb. repeat split; congruence.
Qed.
End SystemSimulation_more.

Section Exact_plant_more.
Import SystemSimulation.
Local Open Scope Qc_scope.

(** [n] further steps of a first-order plant whose output is
    [K*u*(1 - r^m)], with [r = 1 - dt/tau]. *)
Lemma first_order_run_from (n m : nat) (self : t Qc) (K u dt tau : Qc) :
  system_type self = "First Order" ->
  time_constant self = Some tau ->
  gain self = Some K ->
  tau <> 0 ->
  let r := 1 - dt / tau in
  output self = K * u * (1 - r ^ m) ->
  let res := run (repeat (u, dt) n) self in
  fst res = map (fun k => Ok (Some (K * u * (1 - r ^ S k)))) (seq m n)
  /\ output (snd res) = K * u * (1 - r ^ (m + n)).
Proof.
  intros Hty Htau Hk Hne r. revert m self Hty Htau Hk.
  induction n as [|n IH]; intros m self Hty Htau Hk Hy; cbn zeta.
  - cbn. rewrite Nat.add_0_r. split; [reflexivity|exact Hy].
  - cbn [repeat run].
    rewrite (first_order_step self u dt tau K Hty Htau Hk).
    change (feq tau fzero) with (Qc_eq_bool tau 0).
    rewrite (Qc_eq_bool_false _ _ Hne). cbn [andb]. cbn zeta.
    assert (Hstep : (output self + fquot (K * u - output self) tau * dt)%F
                    = K * u * (1 - r ^ S m)).
    { exact_ops. rewrite Hy. cbn [Qcpower]. subst r.
      generalize ((1 - dt / tau) ^ m). intros p. field. exact Hne. }
    rewrite Hstep.
    specialize (IH (S m) (set_output (K * u * (1 - r ^ S m)) self)
                  Hty Htau Hk eq_refl).
    cbn zeta in IH.
    destruct (run (repeat (u, dt) n)
                (set_output (K * u * (1 - r ^ S m)) self))
      as [outs final].
    cbn [fst snd] in *. destruct IH as [-> ->].
    split; [reflexivity|]. now rewrite Nat.add_succ_r.
Qed.

(** X10.  In exact arithmetic, a "First Order" plant with gain [K] and a time
    constant [tau] that is not zero, stepped [n] times from output [0] with
    the same input [u] and step [dt], has output
    [K*u*(1 - (1 - dt/tau)^n)]; every call returns the output it leaves. *)
Theorem first_order_exact (self : t Qc) (K u dt tau : Qc) (n : nat) :
  system_type self = "First Order" ->
  time_constant self = Some tau ->
  gain self = Some K ->
  tau <> 0 ->
  output self = 0 ->
  let r := 1 - dt / tau in
  let res := run (repeat (u, dt) n) self in
  fst res = map (fun k => Ok (Some (K * u * (1 - r ^ S k)))) (seq 0 n)
  /\ output (snd res) = K * u * (1 - r ^ n).
Proof.
  intros Hty Htau Hk Hne Hy r.
  apply (first_order_run_from n 0 self K u dt tau Hty Htau Hk Hne).
  rewrite Hy. cbn [Qcpower]. ring.
Qed.

(** X11.  In exact arithmetic, the state [(K*u, 0)] is an equilibrium of a
    "Second Order" plant under the constant input [u]: every further call
    of [update(u, dt)] returns [K*u] and leaves the state where it was,
    whatever [dt], the damping and the natural frequency are. *)
Theorem second_order_equilibrium (n : nat) (self : t Qc)
  (K u dt wn zeta : Qc) :
  system_type self = "Second Order" ->
  natural_freq self = Some wn ->
  damping self = Some zeta ->
  gain self = Some K ->
  output self = K * u ->
  output_dot self = 0 ->
  let res := run (repeat (u, dt) n) self in
  fst res = repeat (Ok (Some (K * u))) n
  /\ output (snd res) = K * u
  /\ output_dot (snd res) = 0.
Proof.
  revert self. induction n as [|n IH];
    intros self Hty Hwn Hzeta Hk Hy Hyd; cbn zeta.
  - cbn. repeat split; assumption.
  - cbn [repeat run].
    rewrite (second_order_step self u dt wn zeta K Hty Hwn Hzeta Hk).
    cbn zeta. exact_ops. rewrite Hy, Hyd.
    replace (K * u + 0 * dt) with (K * u) by ring.
    replace (0 + (- wn * wn * (K * u) - Q2Qc 2 * zeta * wn * 0
                  + wn * wn * K * u) * dt) with 0 by ring.
    specialize (IH (set_output_dot 0 (set_output (K * u) self))
                  Hty Hwn Hzeta Hk eq_refl eq_refl).
    cbn zeta in IH.
    destruct (run (repeat (u, dt) n)
                (set_output_dot 0 (set_output (K * u) self)))
      as [outs final].
    cbn [fst snd] in *. destruct IH as (-> & -> & ->).
    repeat split.
Qed.
End Exact_plant_more.

(** ** The simulation run, continued *)

Section Indexing.
Context {F : Type} `{PyFloat F}.

Lemma index_nonneg (a : list F) (i : Z) (j : nat) :
  (0 <= i)%Z -> np.index a i = Ok j ->
  j = Z.to_nat i /\ (j < length a)%nat.
Proof.
  unfold np.index. intros Hi.
  destruct (i <? 0)%Z eqn:Hneg; [lia|].
  destruct ((0 <=? i)%Z && (i <? Z.of_nat (length a))%Z)%bool eqn:Hin;
    [|discriminate].
  intros [= <-]. apply andb_true_iff in Hin as [_ Hlt].
  apply Z.ltb_lt in Hlt. split; [reflexivity|lia].
Qed.

Lemma index_neg (a : list F) (i : Z) (j : nat) :
  (i < 0)%Z -> np.index a i = Ok j ->
  Z.of_nat j = (i + Z.of_nat (length a))%Z.
Proof.
  unfold np.index. intros Hi.
  destruct (i <? 0)%Z eqn:Hneg; [|lia].
  destruct ((0 <=? i + Z.of_nat (length a))%Z
            && (i + Z.of_nat (length a) <? Z.of_nat (length a))%Z)%bool
    eqn:Hin; [|discriminate].
  intros [= <-]. apply andb_true_iff in Hin as [Hge _].
  apply Z.leb_le in Hge. lia.
Qed.

Lemma getitem_Ok (a : list F) (i : Z) (v : F) :
  np.getitem a i = Ok v ->
  exists j, np.index a i = Ok j /\ a !! j = Some v.
Proof.
  unfold np.getitem. destruct (np.index a i) as [j|e]; [|discriminate].
  destruct (a !! j) as [w|] eqn:E; [|discriminate].
  intros [= <-]. eauto.
Qed.

Lemma setitem_Ok (a a' : list F) (i : Z) (v : F) :
  np.setitem a i v = Ok a' ->
  exists j, np.index a i = Ok j /\ a' = <[j := v]> a.
Proof.
  unfold np.setitem. destruct (np.index a i) as [j|e]; [|discriminate].
  intros [= <-]. eauto.
Qed.
End Indexing.

Section Run_more.
Context {F : Type} `{PyFloat F}.
Import pid_playground.
Local Open Scope pyfloat_scope.

(** The turn [i = j + 1] of the loop fills [error[j]] from [output[j]] and
    writes no output before index [j + 1]. *)
Lemma loop_body_closed (setpoint_value dt : F) (st st' : loop_state F)
  (j : nat) :
  loop_body setpoint_value dt st (Z.of_nat (S j)) = Ok st' ->
  closed_upto setpoint_value j st ->
  closed_upto setpoint_value (S j) st'
  /\ (forall k, (k <= j)%nat -> output_a st' !! k = output_a st !! k).
Proof.
  unfold loop_body. intros Hrun Hinv.
  apply rbind_Ok in Hrun as (y & Hy & Hrun).
  apply rbind_Ok in Hrun as (err & Herr & Hrun).
  apply rbind_Ok in Hrun as (e & _ & Hrun).
  apply rbind_Ok in Hrun as ([u pid'] & _ & Hrun).
  apply rbind_Ok in Hrun as (ctl & _ & Hrun).
  apply rbind_Ok in Hrun as (u' & _ & Hrun).
  apply rbind_Ok in Hrun as ([y' sys'] & _ & Hrun).
  apply rbind_Ok in Hrun as (out & Hout & Hrun).
  injection Hrun as <-. unfold closed_upto in *. cbn [output_a error_a].
  replace (Z.of_nat (S j) - 1)%Z with (Z.of_nat j) in * by lia.
  apply getitem_Ok in Hy as (jy & Hjy & Hy).
  apply index_nonneg in Hjy as [-> _]; [|lia].
  apply setitem_Ok in Herr as (je & Hje & ->).
  apply index_nonneg in Hje as [-> Hlen]; [|lia].
  apply setitem_Ok in Hout as (jo & Hjo & ->).
  apply index_nonneg in Hjo as [-> _]; [|lia].
  rewrite !Nat2Z.id in *.
  assert (Hsame : forall k, (k <= j)%nat ->
            <[S j := match y' with Some v => v | None => fnan end]>
              (output_a st) !! k = output_a st !! k)
    by (intros k Hk; apply list_lookup_insert_ne; lia).
  split; [|exact Hsame].
  intros k z Hk Hz. rewrite Hsame in Hz by lia.
  destruct (Nat.eq_dec k j) as [-> | Hne].
  - rewrite list_lookup_insert_eq by exact Hlen. congruence.
  - rewrite list_lookup_insert_ne by congruence. apply Hinv; [lia|exact Hz].
Qed.

Lemma for_range_closed (setpoint_value dt : F) (cnt j : nat)
  (st st' : loop_state F) :
  for_range (loop_body setpoint_value dt)
    (map (fun k => Z.of_nat k) (seq (S j) cnt)) st = Ok st' ->
  closed_upto setpoint_value j st ->
  closed_upto setpoint_value (j + cnt) st'
  /\ (forall k, (k <= j)%nat -> output_a st' !! k = output_a st !! k).
Proof.
  revert j st. induction cnt as [|cnt IH]; intros j st; cbn.
  - intros [= <-] Hinv. rewrite Nat.add_0_r. split; [exact Hinv|reflexivity].
  - intros Hrun Hinv. apply rbind_Ok in Hrun as (st1 & Hbody & Hrest).
    apply loop_body_closed in Hbody as [Hinv1 Hsame1]; [|exact Hinv].
    apply IH in Hrest as [Hinv' Hsame']; [|exact Hinv1].
    rewrite Nat.add_succ_r. split; [exact Hinv'|].
    intros k Hk. rewrite Hsame' by lia. apply Hsame1, Hk.
Qed.

(** X12.  In every run that completes, the first output sample is [0] and each
    error sample is the setpoint minus the output sample of the same
    index. *)
Theorem main_closed_loop (Kp Ki Kd setpoint_value sim_time : F)
  (ty : string) (system_params : gmap string F) (d : simulation_data F) :
  main Kp Ki Kd setpoint_value sim_time ty system_params = Ok d ->
  output d !! 0%nat = Some fzero
  /\ forall k y, output d !! k = Some y ->
                 error d !! k = Some (setpoint_value - y).
Proof.
  unfold main. intros Hrun.
  apply rbind_Ok in Hrun as (sys & _ & Hrun).
  apply rbind_Ok in Hrun as (q & _ & Hrun).
  apply rbind_Ok in Hrun as (time_steps & _ & Hrun).
  apply rbind_Ok in Hrun as (time_array & _ & Hrun).
  apply rbind_Ok in Hrun as (setpoint_array & _ & Hrun).
  apply rbind_Ok in Hrun as (output0 & Ho & Hrun).
  apply rbind_Ok in Hrun as (control0 & Hc & Hrun).
  apply rbind_Ok in Hrun as (error0 & He & Hrun).
  apply rbind_Ok in Hrun as (output1 & Ho1 & Hrun).
  apply rbind_Ok in Hrun as (st & Hloop & Hrun).
  apply rbind_Ok in Hrun as (y & Hy & Hrun).
  apply rbind_Ok in Hrun as (error1 & He1 & Hrun).
  apply rbind_Ok in Hrun as (u & _ & Hrun).
  apply rbind_Ok in Hrun as (control1 & _ & Hrun).
  injection Hrun as <-. cbn [output error].
  pose proof (for_range_lengths _ _ _ _ _ Hloop) as (Hlo & _ & Hle).
  cbn [output_a error_a] in Hlo, Hle.
  unfold range1 in Hloop.
  apply for_range_closed in Hloop as [Hinv Hsame];
    [|intros k z Hk; lia].
  cbn [output_a] in Hsame.
  apply zeros_length in Ho, He.
  apply setitem_Ok in Ho1 as (j0 & Hj0 & ->).
  apply index_nonneg in Hj0 as [-> Hlen0]; [|lia].
  rewrite length_insert in Hlo.
  split.
  - rewrite Hsame by lia. apply list_lookup_insert_eq. exact Hlen0.
  - apply getitem_Ok in Hy as (jy & Hjy & Hy).
    apply index_neg in Hjy; [|lia].
    apply setitem_Ok in He1 as (je & Hje & ->).
    apply index_neg in Hje; [|lia].
    assert (Hjj : je = jy) by lia. subst je.
    assert (Hlast : S jy = Z.to_nat time_steps) by lia.
    intros k z Hz.
    destruct (Nat.eq_dec k jy) as [-> | Hne].
    + rewrite list_lookup_insert_eq by lia. congruence.
    + rewrite list_lookup_insert_ne by congruence.
      apply Hinv; [|exact Hz].
      apply lookup_lt_Some in Hz. lia.
Qed.
End Run_more.

Section Run_ends.
Context {F : Type} `{PyFloat F}.
Import pid_playground.
Local Open Scope pyfloat_scope.

(** The last sample of [linspace] is [stop] itself. *)
Lemma linspace_last (start stop : F) (num : Z) (a : list F) :
  np.linspace start stop num = Ok a ->
  (2 <= num)%Z ->
  a !! (Z.to_nat num - 1)%nat = Some stop.
Proof.
  unfold np.linspace. intros Hrun Hnum.
  destruct (num <? 0)%Z eqn:Hneg; [lia|].
  assert (Hn1 : (1 <? Z.to_nat num)%nat = true) by (apply Nat.ltb_lt; lia).
  rewrite Hn1 in Hrun. injection Hrun as <-.
  apply list_lookup_insert_eq.
  repeat match goal with
         | |- context [if ?b then _ else _] => destruct b
         end;
    rewrite ?length_map, ?length_seq; lia.
Qed.

(** X13.  Every run that completes has at least two samples.  Its last control
    sample repeats the one before it, its last time sample is [sim_time]
    itself, and the setpoint array holds the setpoint at every index. *)
Theorem main_endpoints (Kp Ki Kd setpoint_value sim_time : F)
  (ty : string) (system_params : gmap string F) (d : simulation_data F) :
  main Kp Ki Kd setpoint_value sim_time ty system_params = Ok d ->
  let n := length (control_signal d) in
  (2 <= n)%nat
  /\ (exists u, control_signal d !! (n - 2)%nat = Some u
                /\ control_signal d !! (n - 1)%nat = Some u)
  /\ time d !! (n - 1)%nat = Some sim_time
  /\ setpoint d = repeat setpoint_value n.
Proof.
  intros Hrun.
  destruct (main_lengths _ _ _ _ _ _ _ _ Hrun)
    as (q & time_steps & _ & _ & Hlt & _ & _ & Hlc & _).
  unfold main in Hrun.
  apply rbind_Ok in Hrun as (sys & _ & Hrun).
  apply rbind_Ok in Hrun as (q' & _ & Hrun).
  apply rbind_Ok in Hrun as (time_steps' & _ & Hrun).
  apply rbind_Ok in Hrun as (time_array & Ht & Hrun).
  apply rbind_Ok in Hrun as (setpoint_array & Hs & Hrun).
  apply rbind_Ok in Hrun as (output0 & _ & Hrun).
  apply rbind_Ok in Hrun as (control0 & _ & Hrun).
  apply rbind_Ok in Hrun as (error0 & _ & Hrun).
  apply rbind_Ok in Hrun as (output1 & _ & Hrun).
  apply rbind_Ok in Hrun as (st & _ & Hrun).
  apply rbind_Ok in Hrun as (y & _ & Hrun).
  apply rbind_Ok in Hrun as (error1 & _ & Hrun).
  apply rbind_Ok in Hrun as (u & Hu & Hrun).
  apply rbind_Ok in Hrun as (control1 & Hc1 & Hrun).
  injection Hrun as <-. cbn [control_signal time setpoint] in *.
  apply getitem_Ok in Hu as (ju & Hju & Hu).
  apply index_neg in Hju; [|lia].
  apply setitem_Ok in Hc1 as (jc & Hjc & ->).
  apply index_neg in Hjc; [|lia].
  rewrite length_insert in *.
  set (n := length (control_signal_a st)) in *.
  assert (Hju' : ju = (n - 2)%nat) by lia.
  assert (Hjc' : jc = (n - 1)%nat) by lia.
  subst ju jc.
  split; [lia|]. split; [|split].
  - exists u. split.
    + rewrite list_lookup_insert_ne by lia. exact Hu.
    + apply list_lookup_insert_eq. lia.
  - pose proof (linspace_length _ _ _ _ Ht) as Hlen.
    assert (Hnum : (2 <= time_steps')%Z) by lia.
    rewrite <- (linspace_last _ _ _ _ Ht Hnum). f_equal. lia.
  - unfold np.full in Hs. destruct (time_steps' <? 0)%Z; [discriminate|].
    injection Hs as <-. f_equal.
    pose proof (linspace_length _ _ _ _ Ht) as Hlen. lia.
Qed.

(** X14.  The runs that do not complete, by the number of samples
    [int(sim_time / dt)]: a negative number makes [linspace] raise
    [ValueError]; with no sample at all the assignment [output[0] = 0.0]
    raises [IndexError], and with one sample the read of
    [control_signal[-2]] does.  A system type that is not recognized raises
    the constructor's [ValueError] before anything else. *)
Theorem main_errors (Kp Ki Kd setpoint_value sim_time : F)
  (ty : string) (system_params : gmap string F) :
  (~ SystemSimulation.recognized ty ->
   main Kp Ki Kd setpoint_value sim_time ty system_params
   = Raise (ValueError ("Unknown system type: " ++ ty)))
  /\ (forall sys q time_steps,
        SystemSimulation.__init__ ty system_params = Ok sys ->
        truediv sim_time fcenti = Ok q ->
        to_int q = Ok time_steps ->
        ((time_steps < 0)%Z ->
         main Kp Ki Kd setpoint_value sim_time ty system_params
         = Raise (ValueError ("Number of samples, " ++ pretty time_steps
                              ++ ", must be non-negative.")))
        /\ (time_steps = 0%Z \/ time_steps = 1%Z ->
            main Kp Ki Kd setpoint_value sim_time ty system_params
            = Raise IndexError)).
Proof.
  split.
  - intros Hty. unfold main.
    rewrite (init_unrecognized ty system_params Hty). reflexivity.
  - intros sys q time_steps Hinit Hq Hn. unfold main.
    rewrite Hinit. cbn [rbind]. rewrite Hq. cbn [rbind]. rewrite Hn.
    cbn [rbind]. split.
    + intros Hneg. unfold np.linspace.
      apply Z.ltb_lt in Hneg. rewrite Hneg. reflexivity.
    + intros [-> | ->]; reflexivity.
Qed.
End Run_ends.

(** ** The settling time *)

Section Masks.

Lemma any_false (mask : list bool) :
  np.any mask = false -> forall k, mask !! k <> Some true.
Proof.
  induction mask as [|b rest IH]; intros Hany k; [now destruct k|].
  cbn in Hany. apply orb_false_iff in Hany as [-> Hrest].
  destruct k as [|k]; cbn; [discriminate|]. apply IH, Hrest.
Qed.

Lemma any_true (mask : list bool) :
  np.any mask = true -> exists k, mask !! k = Some true.
Proof.
  induction mask as [|b rest IH]; [discriminate|].
  cbn. intros Hany. apply orb_true_iff in Hany as [-> | Hrest].
  - exists 0%nat. reflexivity.
  - destruct (IH Hrest) as [k Hk]. exists (S k). exact Hk.
Qed.

Lemma where_from_None (mask : list bool) (i : nat) :
  last (np.where_from i mask) = None -> forall k, mask !! k <> Some true.
Proof.
  revert i. induction mask as [|b rest IH]; intros i Hlast k;
    [now destruct k|].
  cbn [np.where_from] in Hlast. rewrite last_app in Hlast.
  destruct (last (np.where_from (S i) rest)) eqn:E; [discriminate|].
  destruct b; [discriminate|].
  destruct k as [|k]; cbn; [discriminate|]. exact (IH (S i) E k).
Qed.

(** The last index that [where] lists: the mask holds there and nowhere
    after. *)
Lemma where_from_last (mask : list bool) (i j : nat) :
  last (np.where_from i mask) = Some j ->
  (i <= j)%nat
  /\ mask !! (j - i)%nat = Some true
  /\ forall k, (j - i < k)%nat -> mask !! k <> Some true.
Proof.
  revert i. induction mask as [|b rest IH]; intros i Hlast;
    [discriminate|].
  cbn [np.where_from] in Hlast. rewrite last_app in Hlast.
  destruct (last (np.where_from (S i) rest)) as [j'|] eqn:E.
  - injection Hlast as ->. destruct (IH (S i) E) as (Hle & Hj & Hafter).
    split; [lia|]. split.
    + replace (j - i)%nat with (S (j - S i)) by lia. exact Hj.
    + intros k Hk. destruct k as [|k]; [lia|]. cbn. apply Hafter. lia.
  - destruct b; [|discriminate]. injection Hlast as <-.
    split; [lia|]. rewrite Nat.sub_diag. split; [reflexivity|].
    intros k Hk. destruct k as [|k]; [lia|]. cbn.
    exact (where_from_None rest (S i) E k).
Qed.

Lemma where_indices_last (mask : list bool) (j : nat) :
  mask !! j = Some true ->
  (forall k, (j < k)%nat -> mask !! k <> Some true) ->
  last (np.where_indices mask) = Some j.
Proof.
  intros Hj Hafter. unfold np.where_indices.
  destruct (last (np.where_from 0 mask)) as [j'|] eqn:E.
  - destruct (where_from_last mask 0 j' E) as (_ & Hj' & Hafter').
    rewrite Nat.sub_0_r in Hj', Hafter'.
    destruct (Nat.lt_trichotomy j j') as [Hlt | [-> | Hgt]].
    + now apply Hafter in Hlt.
    + reflexivity.
    + now apply Hafter' in Hgt.
  - now apply (where_from_None mask 0 E) in Hj.
Qed.
End Masks.

Section Settling_time.
Context {F : Type} `{PyFloatAbs F}.
Import pid_playground.
Local Open Scope pyfloat_scope.

(** X15.  [calculate_settling_time] returns [0.0] when no sample of [output] lies
    outside the band [|y - setpoint| <= setpoint * tolerance].  Otherwise,
    with [last] the index of the last sample outside the band, it returns
    the time sample that follows it, [time_array[last + 1]], or the last
    time sample when there is none after [last]; it raises [IndexError]
    only when [time_array] is empty. *)
Theorem calculate_settling_time_spec (output : list F) (setpoint_value : F)
  (time_array : list F) (tolerance : F) :
  (Forall (fun y => violates setpoint_value tolerance y = false) output ->
   calculate_settling_time output setpoint_value time_array tolerance
   = Ok fzero)
  /\ (forall last y,
        output !! last = Some y ->
        violates setpoint_value tolerance y = true ->
        (forall k z, (last < k)%nat -> output !! k = Some z ->
                     violates setpoint_value tolerance z = false) ->
        calculate_settling_time output setpoint_value time_array tolerance
        = match
            time_array !! Nat.min (S last) (length time_array - 1)
          with
          | Some t => Ok t
          | None => Raise IndexError
          end).
Proof.
  unfold calculate_settling_time.
  set (mask := np.abs_diff_greater output setpoint_value
                 (setpoint_value * tolerance)).
  assert (Hmask : forall k, mask !! k
            = violates setpoint_value tolerance <$> output !! k)
    by (intros k; unfold mask, np.abs_diff_greater;
        now rewrite list_lookup_fmap).
  split.
  - intros Hall.
    destruct (np.any mask) eqn:Hany; [|reflexivity].
    apply any_true in Hany as [k Hk]. rewrite Hmask in Hk.
    destruct (output !! k) as [y|] eqn:Hy; [|discriminate].
    rewrite Forall_lookup in Hall. specialize (Hall k y Hy).
    cbn in Hk. congruence.
  - intros j y Hy Hv Hafter.
    assert (Hj : mask !! j = Some true) by (rewrite Hmask, Hy; cbn; congruence).
    assert (Hlast : last (np.where_indices mask) = Some j).
    { apply where_indices_last; [exact Hj|].
      intros k Hk Hm. rewrite Hmask in Hm.
      destruct (output !! k) as [z|] eqn:Hz; [|discriminate].
      cbn in Hm. specialize (Hafter k z Hk Hz). congruence. }
    destruct (np.any mask) eqn:Hany;
      [|now apply (any_false mask Hany) in Hj].
    cbn [negb]. rewrite Hlast.
    unfold np.getitem, np.index.
    destruct (Z.of_nat j >=? Z.of_nat (length time_array) - 1)%Z eqn:Hge.
    + apply Z.geb_le in Hge.
      replace (Nat.min (S j) (length time_array - 1))
        with (length time_array - 1)%nat by lia.
      cbn [Z.ltb Z.compare].
      destruct (length time_array) as [|n] eqn:Hlen.
      * apply length_zero_iff_nil in Hlen. subst time_array. reflexivity.
      * replace ((0 <=? -1 + Z.of_nat (S n))%Z
                 && (-1 + Z.of_nat (S n) <? Z.of_nat (S n))%Z)%bool
          with true by (symmetry; apply andb_true_iff; split;
                        [apply Z.leb_le|apply Z.ltb_lt]; lia).
        replace (Z.to_nat (-1 + Z.of_nat (S n))) with (S n - 1)%nat by lia.
        destruct (time_array !! (S n - 1)%nat); reflexivity.
    + rewrite Z.geb_leb in Hge. apply Z.leb_gt in Hge.
      replace (Nat.min (S j) (length time_array - 1)) with (S j) by lia.
      replace (Z.of_nat j + 1 <? 0)%Z with false
        by (symmetry; apply Z.ltb_ge; lia).
      replace ((0 <=? Z.of_nat j + 1)%Z
               && (Z.of_nat j + 1 <? Z.of_nat (length time_array))%Z)%bool
        with true by (symmetry; apply andb_true_iff; split;
                      [apply Z.leb_le|apply Z.ltb_lt]; lia).
      replace (Z.to_nat (Z.of_nat j + 1)) with (S j) by lia.
      destruct (time_array !! S j); reflexivity.
Qed.

(** X16.  With a time array that is not empty, [calculate_settling_time] raises
    nothing, whatever the lengths of the two arrays are: it returns [0.0]
    or one of the time samples. *)
Theorem calculate_settling_time_returns (output : list F)
  (setpoint_value : F) (time_array : list F) (tolerance : F) :
  time_array <> [] ->
  exists t,
    calculate_settling_time output setpoint_value time_array tolerance = Ok t
    /\ (t = fzero \/ exists k, time_array !! k = Some t).
Proof.
  intros Hne. unfold calculate_settling_time.
  set (mask := np.abs_diff_greater output setpoint_value
                 (setpoint_value * tolerance)).
  destruct (np.any mask) eqn:Hany; cbn [negb]; [|eauto].
  destruct (last (np.where_indices mask)) as [j|] eqn:Hlast.
  2:{ apply any_true in Hany as [k Hk].
      now apply (where_from_None mask 0 Hlast) in Hk. }
  assert (Hlen : (0 < length time_array)%nat)
    by (destruct time_array; [contradiction|cbn; lia]).
  unfold np.getitem, np.index.
  destruct (Z.of_nat j >=? Z.of_nat (length time_array) - 1)%Z eqn:Hge.
  - cbn [Z.ltb Z.compare].
    replace ((0 <=? -1 + Z.of_nat (length time_array))%Z
             && (-1 + Z.of_nat (length time_array)
                 <? Z.of_nat (length time_array))%Z)%bool
      with true by (symmetry; apply andb_true_iff; split;
                    [apply Z.leb_le|apply Z.ltb_lt]; lia).
    destruct (lookup_lt_is_Some_2 time_array
                (Z.to_nat (-1 + Z.of_nat (length time_array))))
      as [t Ht]; [lia|].
    rewrite Ht. eauto.
  - rewrite Z.geb_leb in Hge. apply Z.leb_gt in Hge.
    replace (Z.of_nat j + 1 <? 0)%Z with false
      by (symmetry; apply Z.ltb_ge; lia).
    replace ((0 <=? Z.of_nat j + 1)%Z
             && (Z.of_nat j + 1 <? Z.of_nat (length time_array))%Z)%bool
      with true by (symmetry; apply andb_true_iff; split;
                    [apply Z.leb_le|apply Z.ltb_lt]; lia).
    destruct (lookup_lt_is_Some_2 time_array (Z.to_nat (Z.of_nat j + 1)))
      as [t Ht]; [lia|].
    rewrite Ht. eauto.
Qed.
End Settling_time.

(** ** The further properties at concrete inputs *)

(** X2 at a concrete input.
    Two calls on a controller limited to [(-1, 1)]: the first saturates
    high, the second low. *)
Lemma run_within_limits_witness :
  Forall (fun oc : result float * result (float * float * float) =>
            exists r, fst oc = Ok r
                      /\ PrimFloat.ltb 1%float r = false
                      /\ PrimFloat.ltb r (-1)%float = false)
    (fst (PIDController.run (H := binary64)
            [(2.9%float, 0.01%float); ((-5)%float, 0.01%float)]
            (PIDController.__init__ 1%float 0.1%float 0%float
               (Some ((-1)%float, 1%float))))).
Proof.
  exact (run_within_limits (H := binary64)
           [(2.9%float, 0.01%float); ((-5)%float, 0.01%float)]
           (PIDController.__init__ 1%float 0.1%float 0%float
              (Some ((-1)%float, 1%float)))
           (-1)%float 1%float eq_refl eq_refl).
Defined.

(** X3 at a concrete input.
    A proportional controller ([Ki = 0]) holding an integral of [3] and
    saturating at [hi = 1]. *)
Lemma update_saturated_zero_Ki_witness :
  let self :=
    PIDController.set_integral 3%float
      (PIDController.__init__ 1%float 0%float 0%float
         (Some ((-1)%float, 1%float))) in
  fst (PIDController.update (H := binary64) 5%float 1%float self)
  = Ok 1%float
  /\ PIDController.integral
       (snd (PIDController.update (H := binary64) 5%float 1%float self))
     = 0%float.
Proof.
  intros self.
  exact (update_saturated_zero_Ki (H := binary64) self 5%float 1%float
           eq_refl eq_refl).
Defined.

(** X4 at a concrete input.
    Two calls without limits: the integral is [0 + 1*0.5 + 2*0.25]. *)
Lemma run_unlimited_integral_witness :
  let final :=
    snd (PIDController.run (H := binary64)
           [(1%float, 0.5%float); (2%float, 0.25%float)]
           (PIDController.__init__ 1%float 0.1%float 0.05%float None)) in
  PIDController.integral final = (0 + 1 * 0.5 + 2 * 0.25)%float
  /\ PIDController.previous_error final = 2%float
  /\ PIDController.output_limits final = None.
Proof.
  exact (run_unlimited_integral (H := binary64)
           [(1%float, 0.5%float); (2%float, 0.25%float)]
           (PIDController.__init__ 1%float 0.1%float 0.05%float None)
           eq_refl).
Defined.

(** X5 at a concrete input.
    Two calls with positive errors, in exact arithmetic. *)
Lemma integral_monotone_witness :
  let self :=
    PIDController.__init__ (Q2Qc 1) (Q2Qc (1 # 10)) (Q2Qc 0) None in
  let calls := [(Q2Qc 3, Q2Qc (1 # 2)); (Q2Qc 1, Q2Qc (1 # 4))] in
  (PIDController.integral self
   <= PIDController.integral (snd (PIDController.run calls self)))%Qc.
Proof.
  intros self calls.
  apply (integral_monotone calls self eq_refl).
  - repeat constructor; discriminate.
  - repeat constructor; discriminate.
Defined.

(** X6 at a concrete input.
    A call that saturates at [hi = 1], in exact arithmetic: the integral
    stored, [-19], is below the accumulated [29/1000]. *)
Lemma anti_windup_pulls_back_witness :
  let self :=
    PIDController.__init__ (Q2Qc 1) (Q2Qc (1 # 10)) (Q2Qc 0)
      (Some (Q2Qc (-1), Q2Qc 1)) in
  let error := Q2Qc (29 # 10) in
  let dt := Q2Qc (1 # 100) in
  (PIDController.integral (snd (PIDController.update error dt self))
   < PIDController.integral self + error * dt)%Qc.
Proof.
  intros self error dt.
  apply (anti_windup_pulls_back self error dt (Q2Qc (-1)) (Q2Qc 1) eq_refl);
    reflexivity.
Defined.

(** X7 at a concrete input.
    A "First Order" plant with the default parameters, stepped twice and
    then once more: the third call returns the output it leaves. *)
Lemma constructed_plant_run_witness :
  let self :=
    SystemSimulation.set_gain 1%float
      (SystemSimulation.set_time_constant 1%float
         (SystemSimulation.blank "First Order" ∅)) in
  let calls := [(1%float, 0.01%float); (2%float, 0.01%float)] in
  let reached := snd (SystemSimulation.run (H := binary64) calls self) in
  let next := SystemSimulation.update (H := binary64) 3%float 0.01%float
                reached in
  SystemSimulation.configuration reached
  = SystemSimulation.configuration self
  /\ SystemSimulation.configuration (snd next)
     = SystemSimulation.configuration self
  /\ ((exists y, fst next = Ok (Some y)
                 /\ SystemSimulation.output (snd next) = y)
      \/ (fst next = Raise SystemSimulation.division_error
          /\ snd next = reached
          /\ "First Order" = "First Order"
          /\ true = true
          /\ PrimFloat.eqb 1%float 0%float = true))
  /\ Forall (fun out : result (option float) =>
               (exists y, out = Ok (Some y))
               \/ (out = Raise SystemSimulation.division_error
                   /\ "First Order" = "First Order"
                   /\ true = true
                   /\ PrimFloat.eqb 1%float 0%float = true))
       (fst (SystemSimulation.run (H := binary64) calls self)).
Proof.
  intros self calls.
  exact (constructed_plant_run (H := binary64) "First Order" ∅ self calls
           3%float 0.01%float eq_refl).
Defined.

(** X8 at a concrete input.
    The same plant, stepped twice and reset. *)
Lemma reset_restores_constructed_witness :
  let self :=
    SystemSimulation.set_gain 1%float
      (SystemSimulation.set_time_constant 1%float
         (SystemSimulation.blank "First Order" ∅)) in
  SystemSimulation.reset
    (snd (SystemSimulation.run (H := binary64)
            [(1%float, 0.01%float); (2%float, 0.01%float)] self))
  = (Ok tt, self).
Proof.
  intros self.
  exact (reset_restores_constructed (H := binary64) "First Order" ∅ self
           [(1%float, 0.01%float); (2%float, 0.01%float)] eq_refl).
Defined.

(** X9 at a concrete input.
    An "Integrator" plant started at [4.0] with the rates [7.0] and
    [0.0]. *)
Lemma initial_rate_ignored_witness :
  let self :=
    SystemSimulation.set_gain 2%float
      (SystemSimulation.blank "Integrator" ∅) in
  let a :=
    snd (SystemSimulation.set_initial_conditions 4%float 7%float self) in
  let b :=
    snd (SystemSimulation.set_initial_conditions 4%float 0%float self) in
  fst (SystemSimulation.update (H := binary64) 1%float 0.5%float a)
  = fst (SystemSimulation.update (H := binary64) 1%float 0.5%float b)
  /\ SystemSimulation.output
       (snd (SystemSimulation.update (H := binary64) 1%float 0.5%float a))
     = SystemSimulation.output
         (snd (SystemSimulation.update (H := binary64) 1%float 0.5%float b)).
Proof.
  intros self a b.
  assert (Hty : SystemSimulation.system_type self <> "Second Order")
    by discriminate.
  destruct (initial_rate_ignored (H := binary64) self 4%float 7%float
              0%float 1%float 0.5%float Hty) as (_ & _ & Hret & Hout).
  split; [exact Hret|exact Hout].
Defined.

(** X10 at a concrete input.
    [tau = 2], [K = 3], [u = 1], [dt = 1/2]: after two steps the output is
    [3 * (1 - (3/4)^2) = 21/16]. *)
Lemma first_order_exact_witness :
  let self :=
    SystemSimulation.set_gain (Q2Qc 3)
      (SystemSimulation.set_time_constant (Q2Qc 2)
         (SystemSimulation.blank "First Order" ∅)) in
  SystemSimulation.output
    (snd (SystemSimulation.run (repeat (Q2Qc 1, Q2Qc (1 # 2)) 2) self))
  = (Q2Qc 3 * Q2Qc 1 * (1 - (1 - Q2Qc (1 # 2) / Q2Qc 2) ^ 2))%Qc.
Proof.
  intros self.
  assert (Hne : Q2Qc 2 <> Q2Qc 0)
    by (intros E; apply (f_equal this) in E; discriminate E).
  exact (proj2 (first_order_exact self (Q2Qc 3) (Q2Qc 1) (Q2Qc (1 # 2))
                  (Q2Qc 2) 2 eq_refl eq_refl eq_refl Hne eq_refl)).
Defined.

(** X11 at a concrete input.
    The plant of the dashboard's defaults at rest on [K*u = 5]. *)
Lemma second_order_equilibrium_witness :
  let self :=
    SystemSimulation.set_output (Q2Qc 5)
      (SystemSimulation.set_gain (Q2Qc 1)
         (SystemSimulation.set_natural_freq (Q2Qc 1)
            (SystemSimulation.set_damping (Q2Qc (1 # 2))
               (SystemSimulation.blank "Second Order" ∅)))) in
  let res :=
    SystemSimulation.run (repeat (Q2Qc 5, Q2Qc (1 # 100)) 3) self in
  fst res = repeat (Ok (Some (Q2Qc 1 * Q2Qc 5)%Qc)) 3
  /\ SystemSimulation.output (snd res) = (Q2Qc 1 * Q2Qc 5)%Qc
  /\ SystemSimulation.output_dot (snd res) = Q2Qc 0.
Proof.
  intros self.
  exact (second_order_equilibrium 3 self (Q2Qc 1) (Q2Qc 5) (Q2Qc (1 # 100))
           (Q2Qc 1) (Q2Qc (1 # 2)) eq_refl eq_refl eq_refl eq_refl
           eq_refl eq_refl).
Defined.

(** X13 at a concrete input.
    X12 at a concrete input.
    A run of [0.05] seconds, five samples, on the default plant. *)
Lemma main_closed_loop_witness :
  exists d,
    pid_playground.main (H := numpy_float64)
      1%float 0.1%float 0.05%float 10%float 0.05%float "Second Order" ∅
    = Ok d
    /\ pid_playground.output d !! 0%nat = Some 0%float
    /\ forall k y, pid_playground.output d !! k = Some y ->
                   pid_playground.error d !! k = Some (10 - y)%float.
Proof.
  destruct (pid_playground.main (H := numpy_float64)
              1%float 0.1%float 0.05%float 10%float 0.05%float
              "Second Order" ∅) as [d|e] eqn:E.
  - exists d. split; [reflexivity|].
    exact (main_closed_loop (H := numpy_float64) _ _ _ _ _ _ _ d E).
  - vm_compute in E. discriminate E.
Defined.

Lemma main_endpoints_witness :
  exists d,
    pid_playground.main (H := numpy_float64)
      1%float 0.1%float 0.05%float 10%float 0.05%float "Second Order" ∅
    = Ok d
    /\ (2 <= length (pid_playground.control_signal d))%nat
    /\ pid_playground.time d
       !! (length (pid_playground.control_signal d) - 1)%nat
       = Some 0.05%float.
Proof.
  destruct (pid_playground.main (H := numpy_float64)
              1%float 0.1%float 0.05%float 10%float 0.05%float
              "Second Order" ∅) as [d|e] eqn:E.
  - exists d. split; [reflexivity|].
    destruct (main_endpoints (H := numpy_float64) _ _ _ _ _ _ _ d E)
      as (Hn & _ & Ht & _).
    split; [exact Hn|exact Ht].
  - vm_compute in E. discriminate E.
Defined.

(** X14 at a concrete input.
    [sim_time = 0.005] gives no sample and [sim_time = 0.015] one; the tag
    "Quadratic" is not recognized. *)
Lemma main_errors_witness :
  pid_playground.main (H := numpy_float64)
    1%float 0.1%float 0.05%float 10%float 0.005%float "Integrator" ∅
  = Raise IndexError
  /\ pid_playground.main (H := numpy_float64)
       1%float 0.1%float 0.05%float 10%float 0.015%float "Integrator" ∅
     = Raise IndexError
  /\ pid_playground.main (H := numpy_float64)
       1%float 0.1%float 0.05%float 10%float 20%float "Quadratic" ∅
     = Raise (ValueError "Unknown system type: Quadratic").
Proof.
  split; [|split].
  - refine (proj2 (proj2 (main_errors (H := numpy_float64)
                            1%float 0.1%float 0.05%float 10%float
                            0.005%float "Integrator" ∅)
                     (SystemSimulation.set_gain 1%float
                        (SystemSimulation.blank "Integrator" ∅))
                     0.5%float 0%Z eq_refl eq_refl eq_refl) _).
    left. reflexivity.
  - refine (proj2 (proj2 (main_errors (H := numpy_float64)
                            1%float 0.1%float 0.05%float 10%float
                            0.015%float "Integrator" ∅)
                     (SystemSimulation.set_gain 1%float
                        (SystemSimulation.blank "Integrator" ∅))
                     1.5%float 1%Z eq_refl eq_refl eq_refl) _).
    right. reflexivity.
  - apply (proj1 (main_errors (H := numpy_float64)
                    1%float 0.1%float 0.05%float 10%float 20%float
                    "Quadratic" ∅)).
    exact (bool_decide_unpack
             (~ SystemSimulation.recognized "Quadratic") I).
Defined.

(** X15 at a concrete input.
    Five samples approaching the setpoint [10.0] with the band [0.2]: the
    last one outside is at index [1], and the settling time is
    [time_array[2]]. *)
Lemma calculate_settling_time_spec_witness :
  pid_playground.calculate_settling_time (H0 := numpy_float64_abs)
    [0%float; 5%float; 9.9%float; 10.1%float; 10%float] 10%float
    [0%float; 1%float; 2%float; 3%float; 4%float] 0.02%float
  = Ok 2%float
  /\ pid_playground.calculate_settling_time (H0 := numpy_float64_abs)
       [10%float; 10.1%float] 10%float [0%float; 1%float] 0.02%float
     = Ok 0%float.
Proof.
  split.
  - refine (proj2 (calculate_settling_time_spec (H0 := numpy_float64_abs)
                     [0%float; 5%float; 9.9%float; 10.1%float; 10%float]
                     10%float [0%float; 1%float; 2%float; 3%float; 4%float]
                     0.02%float)
              1%nat 5%float eq_refl eq_refl _).
    intros k z Hk Hz.
    destruct k as [|[|[|[|[|k]]]]]; try lia;
      cbn in Hz; try discriminate Hz; injection Hz as <-; reflexivity.
  - apply (proj1 (calculate_settling_time_spec (H0 := numpy_float64_abs)
                    [10%float; 10.1%float] 10%float [0%float; 1%float]
                    0.02%float)).
    repeat constructor.
Defined.

(** X16 at a concrete input.
    The same samples against a time array of one entry. *)
Lemma calculate_settling_time_returns_witness :
  exists t,
    pid_playground.calculate_settling_time (H0 := numpy_float64_abs)
      [0%float; 5%float; 9.9%float] 10%float [7%float] 0.02%float = Ok t
    /\ (t = 0%float \/ exists k, [7%float] !! k = Some t).
Proof.
  apply (calculate_settling_time_returns (H0 := numpy_float64_abs)
           [0%float; 5%float; 9.9%float] 10%float [7%float] 0.02%float).
  discriminate.
Defined.

(** X1 at a concrete input.
    A negative time step and an error that is not a number. *)
Lemma update_never_raises_witness :
  exists out self',
    PIDController.update (H := binary64) PrimFloat.nan (-1)%float
      (PIDController.__init__ 1%float 0.1%float 0.05%float
         (Some ((-1)%float, 1%float)))
    = (Ok out, self')
    /\ PIDController.Kp self' = 1%float
    /\ PIDController.Ki self' = 0.1%float
    /\ PIDController.Kd self' = 0.05%float
    /\ PIDController.output_limits self' = Some ((-1)%float, 1%float)
    /\ PIDController.previous_error self' = PrimFloat.nan.
Proof.
  exact (update_never_raises (H := binary64)
           (PIDController.__init__ 1%float 0.1%float 0.05%float
              (Some ((-1)%float, 1%float)))
           PrimFloat.nan (-1)%float).
Defined.
